(** * KrakenSDR HTTP control agent: a shallow embedding and its properties

    The development follows the two source files of the agent:

    - [krakensdr_control.py]: the [KrakenSDRControl] bridge to
      [settings.json] (module [Control] below);
    - [kraken_api_agent.py]: the DOA feed parser [fetch_and_process_csv],
      the query helpers, [buildAllowedIPs], the request handler [do_GET]
      and the start-up code.

    Python objects are modelled by the inductive [pyval]; dictionaries are
    [gmap string pyval]; floats are IEEE binary64 values in the sense of
    the standard library's [SpecFloat]; exceptions are values threaded
    through a state-and-error monad over the agent's world (the settings
    file, the staged copy held by the bridge, the DOA feed). *)

From Stdlib Require Import ZArith String Ascii List Bool Lia.
From Stdlib Require Import Floats.SpecFloat.
From stdpp Require Import gmap strings pretty.

Import ListNotations.
Local Open Scope string_scope.
Local Open Scope Z_scope.

(** ** Text helpers

    A text of the program is a Python [str].  The model holds the texts
    whose characters lie in Latin-1, one character (code point 0 .. 255)
    for each [ascii]; a text with a character beyond U+00FF has no
    counterpart here. *)

Module Text.

Definition chars (s : string) : list ascii := list_ascii_of_string s.
Definition text (l : list ascii) : string := string_of_list_ascii l.

(** Code point of a character. *)
Definition code (c : ascii) : Z := Z.of_nat (nat_of_ascii c).

Definition is_digit (c : ascii) : bool := (48 <=? code c) && (code c <=? 57).

Definition digit_val (c : ascii) : option Z :=
  if is_digit c then Some (code c - 48) else None.

(** The white space that [float] and [int] pass over at both ends of a
    text: tab, LF, VT, FF, CR and the space, and of the characters past
    ASCII those that are Unicode white space, NEL (0x85) and the
    no-break space (0xa0).  The separators 0x1c .. 0x1f are left where
    they are, and make the text no numeral. *)
Definition is_space (c : ascii) : bool :=
  ((9 <=? code c) && (code c <=? 13)) || (code c =? 32) ||
  (code c =? 133) || (code c =? 160).

Fixpoint lstrip (l : list ascii) : list ascii :=
  match l with
  | c :: l' => if is_space c then lstrip l' else l
  | [] => []
  end.

Definition strip (l : list ascii) : list ascii := rev (lstrip (rev (lstrip l))).

(** [str.upper()], character by character: the letters a .. z, the
    Latin-1 letters 0xe0 .. 0xfe (the division sign 0xf7 is none) and
    the sharp s, which becomes SS.  The capitals of the micro sign and
    of y with diaeresis lie beyond Latin-1; the two are kept as they
    are, which no comparison of the result with an ASCII text can
    tell. *)
Definition upper_char (c : ascii) : list ascii :=
  if (97 <=? code c) && (code c <=? 122) then [ascii_of_nat (nat_of_ascii c - 32)]
  else if (224 <=? code c) && (code c <=? 254) && negb (code c =? 247)
  then [ascii_of_nat (nat_of_ascii c - 32)]
  else if code c =? 223 then ["S"%char; "S"%char]
  else [c].

Definition lower_char (c : ascii) : ascii :=
  if (65 <=? code c) && (code c <=? 90)
  then ascii_of_nat (nat_of_ascii c + 32) else c.

Definition upper (s : string) : string := text (flat_map upper_char (chars s)).
Definition lower_chars (l : list ascii) : list ascii := map lower_char l.

Definition ascii_eqb (a b : ascii) : bool := Ascii.eqb a b.

(** [s.replace(c, '')] for a one-character pattern. *)
Definition remove_char (c : ascii) (l : list ascii) : list ascii :=
  filter (fun x => negb (ascii_eqb x c)) l.

(** [s.split(c)] for a one-character separator: never returns an empty
    list, and keeps empty pieces. *)
Fixpoint split_on (c : ascii) (l : list ascii) : list (list ascii) :=
  match l with
  | [] => [[]]
  | x :: l' =>
      if ascii_eqb x c then [] :: split_on c l'
      else match split_on c l' with
           | p :: ps => (x :: p) :: ps
           | [] => [[x]]
           end
  end.

Definition contains_char (c : ascii) (l : list ascii) : bool :=
  existsb (ascii_eqb c) l.

(** [s.startswith(p)]. *)
Definition startswith (s p : string) : bool := String.prefix p s.

(** [html.escape(s)] with its default [quote=True]. *)
Definition escape_char (c : ascii) : string :=
  if ascii_eqb c "&" then "&amp;"
  else if ascii_eqb c "<" then "&lt;"
  else if ascii_eqb c ">" then "&gt;"
  else if code c =? 34 then "&quot;"
  else if code c =? 39 then "&#x27;"
  else String c EmptyString.

Fixpoint escape (s : string) : string :=
  match s with
  | EmptyString => EmptyString
  | String c s' => (escape_char c ++ escape s')%string
  end.

End Text.

(** ** Binary64 floats

    A Python [float] is an IEEE 754 binary64 value.  The values are those
    of [SpecFloat.spec_float] in canonical form; comparisons are the
    library's [SFltb], [SFleb] and [SFeqb] (an unordered comparison, one
    with a NaN operand, is false). *)

Module F64.

Definition prec : Z := 53.
Definition emax : Z := 1024.

Definition ltb (x y : spec_float) : bool := SFltb x y.
Definition leb (x y : spec_float) : bool := SFleb x y.
Definition eqb (x y : spec_float) : bool := SFeqb x y.
Definition gtb (x y : spec_float) : bool := ltb y x.

Definition is_nan (x : spec_float) : bool :=
  match x with S754_nan => true | _ => false end.

Definition nan : spec_float := S754_nan.
Definition zero : spec_float := S754_zero false.

(** Quotient of [n / (d * 2^e)] and what is left for the rounding: the
    result is [(q, r, m)] with [n * 2^(-e) = q * m + r] when [e < 0] and
    [n = q * m + r], [m = d * 2^e] otherwise. *)
Definition scaled_div (n d e : Z) : Z * Z * Z :=
  if e <? 0 then
    let n' := n * 2 ^ (- e) in (n' / d, n' mod d, d)
  else
    let d' := d * 2 ^ e in (n / d', n mod d', d').

(** Round to nearest, ties to even. *)
Definition round_half_even (qrm : Z * Z * Z) : Z :=
  let '(q, r, m) := qrm in
  if (m <? 2 * r) || ((m =? 2 * r) && Z.odd q) then q + 1 else q.

(** The binary64 value nearest to the positive rational [n / d]
    ([0 < n], [0 < d]), with sign [s]. *)
Definition of_ratio (s : bool) (n d : Z) : spec_float :=
  let e0 := Z.log2 n - Z.log2 d - 52 in
  let e1 := if fst (fst (scaled_div n d e0)) <? 2 ^ 52 then e0 - 1 else e0 in
  let e := Z.max e1 (-1074) in
  let q := round_half_even (scaled_div n d e) in
  let '(q, e) := if q =? 2 ^ 53 then (2 ^ 52, e + 1) else (q, e) in
  if q =? 0 then S754_zero s
  else if 971 <? e then S754_infinity s
  else S754_finite s (Z.to_pos q) e.

(** The value of the decimal numeral [m * 10^k] with sign [s]. *)
Definition of_decimal (s : bool) (m k : Z) : spec_float :=
  if m =? 0 then S754_zero s
  else if k <? 0 then of_ratio s m (10 ^ (- k))
  else of_ratio s (m * 10 ^ k) 1.

(** [float(n)] for an integer; CPython raises [OverflowError] when the
    integer is too large, which is the [None] here. *)
Definition of_Z (n : Z) : option spec_float :=
  match of_decimal (n <? 0) (Z.abs n) 0 with
  | S754_infinity _ => None
  | f => Some f
  end.

End F64.

(** ** Python values and exceptions *)

#[warnings="-register-all"]
Inductive pyval : Type :=
| PyNone
| PyBool (b : bool)
| PyInt (n : Z)
| PyFloat (f : spec_float)
| PyStr (s : string)
| PyList (l : list pyval)
| PyDict (d : gmap string pyval).

(** A Python dictionary with text keys. *)
Abbreviation pydict := (gmap string pyval).

(** The exceptions the agent can meet.  [PlainException] is the source's
    own [raise Exception(msg)]; the others are raised by the interpreter
    or by a library, and carry what identifies the fault. *)
Inductive pyexc : Type :=
| PlainException (msg : string)
| ValueError (what : string)          (* a conversion rejected the text [what] *)
| TypeError (what : string)           (* wrong argument type or argument count *)
| UnboundLocalError (name : string)   (* a local read before any assignment *)
| IndexError                          (* list index out of range *)
| KeyError (key : string)
| OverflowError
| OSError (what : string)             (* file or clock failure *)
| RequestException                    (* requests: connection or HTTP status error *)
| CsvError.                           (* csv.Error *)

(** [isinstance(e, ValueError)], as tested by [except ValueError]. *)
Definition is_ValueError (e : pyexc) : bool :=
  match e with ValueError _ => true | _ => false end.

(** The outcome of a Python expression: a value or a raised exception. *)
Inductive outcome (A : Type) : Type :=
| Ret (a : A)
| Raise (e : pyexc).
Arguments Ret {A} a.
Arguments Raise {A} e.

(** ** The builtins [float()] and [int()]

    Both are total on the texts of the model: [None] is Python's
    [ValueError].  The grammar is the one of the language reference:
    surrounding white space is dropped, a sign is optional, digits may be
    grouped by single underscores; [float] also reads [inf], [infinity]
    and [nan] in any letter case and rounds a decimal numeral to the
    nearest binary64; [int] refuses a numeral of more than 4300 digits.
    Latin-1 has no decimal digits but 0 .. 9. *)

Module Builtins.
Import Text.

(** Reads [digit (["_"] digit)*] after its first digit: the value so far,
    the number of digits read, and the unread rest. *)
Fixpoint digit_tail (acc : Z) (n : Z) (l : list ascii) : Z * Z * list ascii :=
  match l with
  | [] => (acc, n, [])
  | c :: l' =>
      match digit_val c with
      | Some d => digit_tail (10 * acc + d) (n + 1) l'
      | None =>
          if ascii_eqb c "_" then
            match l' with
            | c2 :: l'' =>
                match digit_val c2 with
                | Some d => digit_tail (10 * acc + d) (n + 1) l''
                | None => (acc, n, l)
                end
            | [] => (acc, n, l)
            end
          else (acc, n, l)
      end
  end.

(** Reads a [digitpart] continuing the numeral [acc]; [None] when the
    text does not start with a digit. *)
Definition digitpart (acc : Z) (l : list ascii) : option (Z * Z * list ascii) :=
  match l with
  | c :: l' =>
      match digit_val c with
      | Some d => Some (digit_tail (10 * acc + d) 1 l')
      | None => None
      end
  | [] => None
  end.

(** An optional sign: [true] for a minus. *)
Definition opt_sign (l : list ascii) : bool * list ascii :=
  match l with
  | c :: l' =>
      if ascii_eqb c "-" then (true, l')
      else if ascii_eqb c "+" then (false, l')
      else (false, l)
  | [] => (false, [])
  end.

(** [exponent ::= ("e" | "E") [sign] digitpart], read to the end of the
    text; an empty text is the exponent 0. *)
Definition exponent (l : list ascii) : option Z :=
  match l with
  | [] => Some 0
  | c :: l' =>
      if ascii_eqb (lower_char c) "e" then
        let '(neg, l'') := opt_sign l' in
        match digitpart 0 l'' with
        | Some (v, _, []) => Some (if neg then - v else v)
        | _ => None
        end
      else None
  end.

(** [number [exponent]]: the numeral as an integer [m] and a power of ten
    [k], standing for [m * 10^k]. *)
Definition floatnumber (l : list ascii) : option (Z * Z) :=
  match digitpart 0 l with
  | Some (ip, _, rest) =>
      match rest with
      | c :: rest' =>
          if ascii_eqb c "." then
            match digitpart ip rest' with
            | Some (m, nfrac, rest'') =>
                match exponent rest'' with
                | Some x => Some (m, x - nfrac)
                | None => None
                end
            | None =>
                match exponent rest' with
                | Some x => Some (ip, x)
                | None => None
                end
            end
          else
            match exponent rest with
            | Some x => Some (ip, x)
            | None => None
            end
      | [] => Some (ip, 0)
      end
  | None =>
      match l with
      | c :: rest' =>
          if ascii_eqb c "." then
            match digitpart 0 rest' with
            | Some (m, nfrac, rest'') =>
                match exponent rest'' with
                | Some x => Some (m, x - nfrac)
                | None => None
                end
            | None => None
            end
          else None
      | [] => None
      end
  end.

Definition list_ascii_eqb (a b : list ascii) : bool :=
  String.eqb (text a) (text b).

(** [float(s)] for a text [s]. *)
Definition float_of_string (s : string) : option spec_float :=
  let '(neg, body) := opt_sign (strip (chars s)) in
  let low := lower_chars body in
  if list_ascii_eqb low (chars "inf") || list_ascii_eqb low (chars "infinity")
  then Some (S754_infinity neg)
  else if list_ascii_eqb low (chars "nan") then Some S754_nan
  else match floatnumber body with
       | Some (m, k) => Some (F64.of_decimal neg m k)
       | None => None
       end.

(** The longest decimal numeral that [int] reads and the longest that
    [str] writes of an integer (CPython 3.11 and later; the digits are
    counted, leading zeros among them, signs and underscores not). *)
Definition max_str_digits : nat := 4300.

(** A natural number of at most [k] decimal digits. *)
Fixpoint at_most_digits (k : nat) (n : Z) : bool :=
  match k with
  | O => false
  | S k' => if n <? 10 then true else at_most_digits k' (n / 10)
  end.
Arguments at_most_digits : simpl never.

(** [int(s)] for a text [s], in base ten. *)
Definition int_of_string (s : string) : option Z :=
  let '(neg, body) := opt_sign (strip (chars s)) in
  match digitpart 0 body with
  | Some (v, n, []) =>
      if n <=? Z.of_nat max_str_digits then Some (if neg then - v else v)
      else None
  | _ => None
  end.

(** [str(n)] for an integer: a [ValueError] past the limit. *)
Definition str_int (n : Z) : outcome string :=
  if at_most_digits max_str_digits (Z.abs n) then Ret (pretty n)
  else Raise (ValueError "int").

(** [float(v)] on the values a parsed query or a CSV cell can hold. *)
Definition py_float (v : pyval) : outcome spec_float :=
  match v with
  | PyFloat f => Ret f
  | PyInt n =>
      match F64.of_Z n with Some f => Ret f | None => Raise OverflowError end
  | PyBool b =>
      Ret (if b then F64.of_decimal false 1 0 else F64.zero)
  | PyStr s =>
      match float_of_string s with
      | Some f => Ret f
      | None => Raise (ValueError s)
      end
  | PyNone | PyList _ | PyDict _ => Raise (TypeError "float")
  end.

(** [int(v)]; a float is truncated, and its NaN and infinities refused. *)
Definition py_int (v : pyval) : outcome Z :=
  match v with
  | PyInt n => Ret n
  | PyBool b => Ret (if b then 1 else 0)
  | PyStr s =>
      match int_of_string s with
      | Some n => Ret n
      | None => Raise (ValueError s)
      end
  | PyFloat f =>
      match f with
      | S754_zero _ => Ret 0
      | S754_finite sg m e =>
          let a := if e <? 0 then Z.pos m / 2 ^ (- e) else Z.pos m * 2 ^ e in
          Ret (if sg then - a else a)
      | S754_infinity _ => Raise OverflowError
      | S754_nan => Raise (ValueError "nan")
      end
  | PyNone | PyList _ | PyDict _ => Raise (TypeError "int")
  end.

End Builtins.

(** ** The state-and-error monad

    A Python statement either completes or raises, and may change the
    store on the way; an exception keeps the changes made before it. *)

Module Eff.

Definition M (S A : Type) : Type := S -> outcome A * S.

Definition ret {S A} (a : A) : M S A := fun st => (Ret a, st).

Definition raise {S A} (e : pyexc) : M S A := fun st => (Raise e, st).

Definition bind {S A B} (m : M S A) (k : A -> M S B) : M S B :=
  fun st =>
    match m st with
    | (Ret a, st') => k a st'
    | (Raise e, st') => (Raise e, st')
    end.

Definition gets {S A} (f : S -> A) : M S A := fun st => (Ret (f st), st).

Definition modify {S} (f : S -> S) : M S unit := fun st => (Ret tt, f st).

(** A pure computation that may raise. *)
Definition lift {S A} (o : outcome A) : M S A := fun st => (o, st).

(** [try: body / except Exception as e: handler(e)]. *)
Definition try_except {S A} (body : M S A) (handler : pyexc -> M S A) : M S A :=
  fun st =>
    match body st with
    | (Ret a, st') => (Ret a, st')
    | (Raise e, st') => handler e st'
    end.

End Eff.

Declare Scope eff_scope.
Delimit Scope eff_scope with eff.
Notation "x <- m ;; k" := (Eff.bind m (fun x => k))
  (at level 100, m at next level, right associativity) : eff_scope.
Notation "m ;;; k" := (Eff.bind m (fun _ => k))
  (at level 100, right associativity) : eff_scope.

(** ** krakensdr_control.py: the bridge to settings.json *)

Module Control.
Import Eff.
Local Open Scope eff_scope.

(** What is found at [self.settings_file]. *)
Inductive settings_file : Type :=
| Missing                      (* no such file, or not readable *)
| Garbled                      (* readable, but not a JSON document *)
| Document (d : pydict).

(** The bridge object together with the file it edits.  [writes] records
    every document [save_config] has written, the latest first. *)
Record store : Type := {
  disk : settings_file;
  disk_writable : bool;
  staged : option pydict;      (* self.settings *)
  writes : list pydict
}.

Definition set_disk (d : pydict) (st : store) : store :=
  {| disk := Document d; disk_writable := disk_writable st;
     staged := staged st; writes := d :: writes st |}.

Definition set_staged (o : option pydict) (st : store) : store :=
  {| disk := disk st; disk_writable := disk_writable st;
     staged := o; writes := writes st |}.

(** The file after a write that broke off: opened, and so emptied, but
    not filled with a document. *)
Definition spoil (st : store) : store :=
  {| disk := Garbled; disk_writable := disk_writable st;
     staged := staged st; writes := writes st |}.

(** The values [json.dump] writes.  It writes whatever [json.load] reads;
    what it refuses is an integer of more than 4300 digits, whose decimal
    form the interpreter does not produce, on its own or inside a list
    or a dictionary. *)
Fixpoint encodable (v : pyval) : bool :=
  match v with
  | PyInt n => Builtins.at_most_digits Builtins.max_str_digits (Z.abs n)
  | PyList l => forallb encodable l
  | PyDict d => map_fold (fun _ v ok => encodable v && ok) true d
  | _ => true
  end.

(** [self.valid_gains]. *)
Definition valid_gains : list pyval :=
  Eval vm_compute in
  PyInt 0 ::
  map (fun mk => PyFloat (F64.of_decimal false (fst mk) (snd mk)))
    [(9, -1); (14, -1); (27, -1); (37, -1); (77, -1); (87, -1); (125, -1);
     (144, -1); (157, -1); (166, -1); (197, -1); (207, -1); (229, -1);
     (254, -1); (280, -1); (297, -1); (328, -1); (338, -1); (364, -1);
     (372, -1); (386, -1); (402, -1); (421, -1); (434, -1); (439, -1);
     (445, -1); (480, -1); (496, -1)].

(** [str(self.valid_gains)]. *)
Definition valid_gains_str : string :=
  "[0, 0.9, 1.4, 2.7, 3.7, 7.7, 8.7, 12.5, 14.4, 15.7, 16.6, 19.7, 20.7, 22.9, 25.4, 28.0, 29.7, 32.8, 33.8, 36.4, 37.2, 38.6, 40.2, 42.1, 43.4, 43.9, 44.5, 48.0, 49.6]".

(** [f == n] for a float and an integer: Python compares the exact
    values. *)
Definition float_eq_int (f : spec_float) (n : Z) : bool :=
  match f with
  | S754_zero _ => n =? 0
  | S754_finite sg m e =>
      let a := if sg then Z.neg m else Z.pos m in
      if e <? 0 then a =? n * 2 ^ (- e) else a * 2 ^ e =? n
  | _ => false
  end.

(** [gain == v] for a float [gain] and an entry [v] of the table. *)
Definition float_eq_val (gain : spec_float) (v : pyval) : bool :=
  match v with
  | PyFloat f => F64.eqb gain f
  | PyInt n => float_eq_int gain n
  | PyBool b => float_eq_int gain (if b then 1 else 0)
  | _ => false
  end.

(** [gain in self.valid_gains]; the float handed in is a fresh object, so
    membership is decided by [==] alone. *)
Definition gain_in_table (gain : spec_float) : bool :=
  existsb (float_eq_val gain) valid_gains.

Definition get_config : M store pydict :=
  fun st =>
    match disk st with
    | Document d => (Ret d, st)
    | Missing => (Raise (OSError "settings.json"), st)
    | Garbled => (Raise (ValueError "settings.json"), st)
    end.

(** [save_config(new_config)].  [open(self.settings_file, "w")] fails on
    a file that cannot be written and leaves it as it was.  Once it has
    succeeded the file is empty, and [json.dump] writes the document
    piece by piece: a value it refuses makes it raise with the file left
    behind as no JSON document.  A document that the file holds or that
    the bridge has staged is taken to be one that [json.dump] writes (it
    has been read by [json.load], and nesting as deep as the
    interpreter's recursion limit is not considered); [assigned] are the
    values the caller has put into [new_config] since, the ones that can
    make the write fail. *)
Definition save_config (new_config : pydict) (assigned : list pyval) : M store unit :=
  fun st =>
    if disk_writable st then
      if forallb encodable assigned then (Ret tt, set_disk new_config st)
      else (Raise (ValueError "json.dump"), spoil st)
    else (Raise (OSError "settings.json"), st).

(** [update_value(key, new_value, save_file)].  When a staged copy
    exists, [settings] is that very dictionary, so the assignment
    [settings[key] = new_value] already changes [self.settings]. *)
Definition update_value (key : string) (new_value : pyval) (save_file : bool)
  : M store unit :=
  cached <- gets staged ;;
  settings <- match cached with
              | None => get_config
              | Some s => ret s
              end ;;
  let settings := <[key := new_value]> settings in
  match cached with
  | None => ret tt
  | Some _ => modify (set_staged (Some settings))
  end ;;;
  if save_file then
    save_config settings [new_value] ;;;
    modify (set_staged None)
  else
    modify (set_staged (Some settings)).

Definition optimize_short_bursts (new_state : pyval) (save_file : bool) : M store unit :=
  update_value "en_optimize_short_bursts" new_state save_file.

Definition set_frequency (new_frequency_mhz : pyval) (save_file : bool) : M store unit :=
  update_value "center_freq" new_frequency_mhz save_file.

Definition set_output_vfo (vfo_number vfo : pyval) (save_file : bool) : M store unit :=
  update_value "output_vfo" vfo save_file.

Definition set_vfo_frequency (vfo_number : Z) (frequency : pyval) (save_file : bool)
  : M store unit :=
  number <- lift (Builtins.str_int vfo_number) ;;
  let key := "vfo_freq_" +:+ number in
  update_value key frequency save_file.

Definition set_vfo_bandwidth (vfo_number : Z) (bw : pyval) (save_file : bool)
  : M store unit :=
  number <- lift (Builtins.str_int vfo_number) ;;
  let key := "vfo_bw_" +:+ number in
  update_value key bw save_file.

Definition set_gain (gain : spec_float) (save_file : bool) : M store unit :=
  if negb (gain_in_table gain) then
    raise (PlainException
             ("ERROR: Invalid gain value.  Gain must be one of " +:+ valid_gains_str))
  else
    update_value "uniform_gain" (PyFloat gain) save_file.

(** [coordinates[key]]. *)
Definition subscript (d : pydict) (key : string) : outcome pyval :=
  match d !! key with
  | Some v => Ret v
  | None => Raise (KeyError key)
  end.

(** [if key in coordinates: settings[key] = conv(coordinates[key])]. *)
Definition copy_if_present (coordinates : pydict) (key : string)
    (conv : pyval -> outcome pyval) (settings : pydict) : outcome pydict :=
  match coordinates !! key with
  | None => Ret settings
  | Some v =>
      match conv v with
      | Ret v' => Ret (<[key := v']> settings)
      | Raise e => Raise e
      end
  end.

Definition as_float (v : pyval) : outcome pyval :=
  match Builtins.py_float v with Ret f => Ret (PyFloat f) | Raise e => Raise e end.

Definition as_int (v : pyval) : outcome pyval :=
  match Builtins.py_int v with Ret n => Ret (PyInt n) | Raise e => Raise e end.

Definition as_is (v : pyval) : outcome pyval := Ret v.

Definition obind {A B} (o : outcome A) (k : A -> outcome B) : outcome B :=
  match o with Ret a => k a | Raise e => Raise e end.

(** The assignments of [set_coordinates] between its read and its write. *)
Definition apply_coordinates (coordinates settings : pydict) : outcome pydict :=
  obind (subscript coordinates "latitude") (fun lat =>
  obind (as_float lat) (fun lat =>
  let settings := <["latitude" := lat]> settings in
  obind (subscript coordinates "longitude") (fun lon =>
  obind (as_float lon) (fun lon =>
  let settings := <["longitude" := lon]> settings in
  obind (copy_if_present coordinates "heading" as_float settings) (fun settings =>
  obind (copy_if_present coordinates "location_source" as_is settings) (fun settings =>
  obind (copy_if_present coordinates "gps_fixed_heading" as_is settings) (fun settings =>
  obind (copy_if_present coordinates "gps_min_speed" as_int settings) (fun settings =>
  copy_if_present coordinates "gps_min_speed_duration" as_int settings)))))))).

(** The keys [set_coordinates] looks for, and the values it has
    assigned under those that [coordinates] holds. *)
Definition known_keys : list string :=
  ["latitude"; "longitude"; "heading"; "location_source"; "gps_fixed_heading";
   "gps_min_speed"; "gps_min_speed_duration"].

Definition assigned_coordinates (coordinates settings : pydict) : list pyval :=
  omap (fun key => match coordinates !! key with
                   | Some _ => settings !! key
                   | None => None
                   end) known_keys.

Definition set_coordinates (coordinates : pydict) : M store unit :=
  settings <- get_config ;;
  settings <- lift (apply_coordinates coordinates settings) ;;
  save_config settings (assigned_coordinates coordinates settings).

(** *** Calls from untyped code

    A call binds its positional arguments to the parameters of the
    [def]; a count that fits no signature is a [TypeError], raised before
    the body runs. *)

(** Truth value of an object, as tested by [if]. *)
Definition truthy (v : pyval) : bool :=
  match v with
  | PyNone => false
  | PyBool b => b
  | PyInt n => negb (n =? 0)
  | PyFloat f => negb (F64.eqb f F64.zero)
  | PyStr s => negb (String.eqb s "")
  | PyList l => match l with [] => false | _ => true end
  | PyDict d => negb (bool_decide (dom d = ∅))
  end.

(** [def set_output_vfo(self, vfo_number, vfo, save_file=True)]. *)
Definition call_set_output_vfo (args : list pyval) : M store unit :=
  match args with
  | [vfo_number; vfo] => set_output_vfo vfo_number vfo true
  | [vfo_number; vfo; save_file] => set_output_vfo vfo_number vfo (truthy save_file)
  | _ => raise (TypeError "set_output_vfo")
  end.

(** [def set_coordinates(self, coordinates)]; an argument that is not a
    dictionary fails at the first subscript, after the read. *)
Definition call_set_coordinates (args : list pyval) : M store unit :=
  match args with
  | [PyDict coordinates] => set_coordinates coordinates
  | [_] => get_config ;;; raise (TypeError "set_coordinates")
  | _ => raise (TypeError "set_coordinates")
  end.

End Control.

(** ** kraken_api_agent.py *)

(** What the host contributes and the source does not fix: the clock
    library behind [datetime.fromtimestamp(float(epoch) / 1000, tz=utc)],
    [convert_utc_to_local] and the two [strftime] calls, which yields the
    UTC text (before the ["Z"] is appended) and the local text of an
    epoch in milliseconds or raises; and the wording [str(e)] of the
    exceptions raised by the interpreter and its libraries. *)
Record platform : Type := {
  clock : Z -> outcome (string * string);
  lib_text : pyexc -> string
}.

(** [str(e)]. *)
Definition str_exc (P : platform) (e : pyexc) : string :=
  match e with
  | PlainException msg => msg
  | _ => lib_text P e
  end.

(** *** The DOA feed parser *)

Module Feed.
Import Text.

(** The answer of [requests.get(url)] followed by [raise_for_status()]
    and [csv.reader]: either the request fails with a
    [RequestException], or the body is read as rows, in order, after
    which the reader ends or raises [csv.Error] ([csv_fails]). *)
Inductive feed : Type :=
| Unreachable
| Body (rows : list (list string)) (csv_fails : bool).

(** What [fetch_and_process_csv] prints. *)
Inductive diagnostic : Type :=
| SkippingRow (line_number : nat)                 (* insufficient fields *)
| ErrorConverting (line_number : nat) (e : pyexc)
| ErrorGet
| ErrorCsv.

Definition base_fields : list string :=
  ["Epoch Time"; "Max DOA Angle (Degrees)"; "Confidence Value";
   "RSSI Power (dB)"; "Channel Frequency (Hz)"; "Antenna Arrangement";
   "Latency (ms)"; "Station ID"; "Latitude"; "Longitude"; "GPS Heading";
   "Compass Heading"; "Main Heading Sensor Used"].

Definition reserved_fields : list string :=
  map (fun i : nat => "Reserved Field " +:+ pretty i) (seq 14 4).

Definition doa_fields : list string :=
  map (fun i : nat => "DOA Power " +:+ pretty i) (seq 0 360).

Definition fields : list string :=
  (base_fields ++ reserved_fields ++ doa_fields)%list.

(** [{fields[i]: row[i] for i in range(len(base_fields))}]. *)
Fixpoint base_comprehension (row : list string) (idx : list nat) (acc : pydict)
  : outcome pydict :=
  match idx with
  | [] => Ret acc
  | i :: idx' =>
      match fields !! i, row !! i with
      | Some k, Some v => base_comprehension row idx' (<[k := PyStr v]> acc)
      | _, _ => Raise IndexError
      end
  end.

(** [base_data[key] = float(base_data[key])]. *)
Definition float_field (key : string) (base_data : pydict) : outcome pydict :=
  Control.obind (Control.subscript base_data key) (fun v =>
  Control.obind (Builtins.py_float v) (fun f =>
  Ret (<[key := PyFloat f]> base_data))).

(** [base_data.get(key, default)]. *)
Definition dict_get (d : pydict) (key : string) (default : pyval) : pyval :=
  match d !! key with Some v => v | None => default end.

Section Parser.
Variable P : platform.

(** The body of the inner [try]. *)
Definition convert_fields (base_data : pydict) : outcome pydict :=
  Control.obind (Control.subscript base_data "Epoch Time") (fun v =>
  Control.obind (Builtins.py_int v) (fun epoch =>
  let base_data := <["Epoch Time" := PyInt epoch]> base_data in
  Control.obind (clock P epoch) (fun stamps =>
  let base_data := <["utc_timestamp" := PyStr (fst stamps +:+ "Z")]> base_data in
  let base_data := <["local_timestamp" := PyStr (snd stamps)]> base_data in
  Control.obind (float_field "Max DOA Angle (Degrees)" base_data) (fun base_data =>
  Control.obind (float_field "Confidence Value" base_data) (fun base_data =>
  Control.obind (float_field "RSSI Power (dB)" base_data) (fun base_data =>
  Control.obind (float_field "Channel Frequency (Hz)" base_data) (fun base_data =>
  Control.obind (float_field "Latency (ms)" base_data) (fun base_data =>
  Control.obind (float_field "Latitude" base_data) (fun base_data =>
  Control.obind (float_field "Longitude" base_data) (fun base_data =>
  Control.obind (float_field "GPS Heading" base_data) (fun base_data =>
  Control.obind
    (Builtins.py_float (dict_get base_data "Compass Heading" (PyStr "NaN")))
    (fun f => Ret (<["Compass Heading" := PyFloat f]> base_data))))))))))))).

(** [{str(degree): float(row[len(base_fields) + len(reserved_fields) + degree])
      for degree in range(360)}]. *)
Fixpoint doa_comprehension (row : list string) (degrees : list nat) (acc : pydict)
  : outcome pydict :=
  match degrees with
  | [] => Ret acc
  | degree :: degrees' =>
      match row !! (length base_fields + length reserved_fields + degree)%nat with
      | None => Raise IndexError
      | Some cell =>
          match Builtins.py_float (PyStr cell) with
          | Ret f => doa_comprehension row degrees' (<[pretty degree := PyFloat f]> acc)
          | Raise e => Raise e
          end
      end
  end.

(** One turn of the [for] loop: the row is skipped ([None]), appended
    ([Some]), or an exception leaves the loop. *)
Definition process_row (line_number : nat) (row : list string)
  : outcome (option pydict) * list diagnostic :=
  if (length row <? length fields)%nat then
    (Ret None, [SkippingRow line_number])
  else
    match base_comprehension row (seq 0 (length base_fields)) ∅ with
    | Raise e => (Raise e, [])
    | Ret base_data =>
        match convert_fields base_data with
        | Raise e =>
            if is_ValueError e
            then (Ret None, [ErrorConverting line_number e])
            else (Raise e, [])
        | Ret base_data =>
            match doa_comprehension row (seq 0 360) ∅ with
            | Raise e => (Raise e, [])
            | Ret doa_output =>
                (Ret (Some (<["DOA Output" := PyDict doa_output]> base_data)), [])
            end
        end
    end.

(** The [for line_number, row in enumerate(csv_reader, start=1)] loop. *)
Fixpoint process_rows (line_number : nat) (todo : list (list string))
    (rows : list pydict) : outcome (list pydict) * list diagnostic :=
  match todo with
  | [] => (Ret rows, [])
  | row :: todo' =>
      match process_row line_number row with
      | (Raise e, out) => (Raise e, out)
      | (Ret None, out) =>
          let '(r, out') := process_rows (S line_number) todo' rows in
          (r, (out ++ out')%list)
      | (Ret (Some base_data), out) =>
          let '(r, out') := process_rows (S line_number) todo' (rows ++ [base_data])%list in
          (r, (out ++ out')%list)
      end
  end.

(** [fetch_and_process_csv(server_name)], given what the server answers. *)
Definition fetch_and_process_csv (f : feed)
  : outcome (list pydict) * list diagnostic :=
  match f with
  | Unreachable => (Ret [], [ErrorGet])
  | Body todo csv_fails =>
      match process_rows 1 todo [] with
      | (Raise RequestException, out) => (Ret [], (out ++ [ErrorGet])%list)
      | (Raise CsvError, out) => (Ret [], (out ++ [ErrorCsv])%list)
      | (Raise e, out) => (Raise e, out)
      | (Ret rows, out) =>
          if csv_fails then (Ret [], (out ++ [ErrorCsv])%list) else (Ret rows, out)
      end
  end.

End Parser.
End Feed.

(** *** Query parameters and responses *)

Module Agent.
Import Text Eff.
Local Open Scope eff_scope.

(** The result of [parse_qs]: every key with the non-empty list of its
    values. *)
Abbreviation query := (gmap string (list string)).

Definition unwrap_single (values : list string) : pyval :=
  match values with
  | [v] =>
      if String.eqb (upper v) "TRUE" then PyBool true
      else if String.eqb (upper v) "FALSE" then PyBool false
      else PyStr v
  | _ => PyList (PyStr <$> values)
  end.

Definition param_data_to_dict (req_query : query) : pydict :=
  unwrap_single <$> req_query.

Definition build_base_dict : pydict :=
  <["errmsg" := PyStr ""]> (<["errcode" := PyInt 0]> ∅).

(** What the handler writes back. *)
Inductive http_response : Type :=
| NoResponse
| Html (status : Z) (body : string)
| Redirect (status : Z) (location : string)
| Json (status : Z) (body : pydict).

Definition return_json_dict (responsedict : pydict) : http_response :=
  Json 200 responsedict.

Definition return_error_json (err_code : Z) (err_msg : string) : http_response :=
  return_json_dict
    (<["errmsg" := PyStr (escape err_msg)]> (<["errcode" := PyInt err_code]> ∅)).

Definition return_error_html (err_code : Z) (err_msg : string) : http_response :=
  Html 404 ("<html><body><p>" +:+ escape err_msg +:+ "</p>" +:+ "</body></html>").

(** The [errcode] of a JSON envelope. *)
Definition errcode (r : http_response) : option Z :=
  match r with
  | Json _ body =>
      match body !! "errcode" with
      | Some (PyInt n) => Some n
      | _ => None
      end
  | _ => None
  end.

(** An extra field of a JSON envelope. *)
Definition field (r : http_response) (key : string) : option pyval :=
  match r with
  | Json _ body => body !! key
  | _ => None
  end.

(** *** The allow-list *)

(** The pieces of the pattern
    [([0-9]{1,3}\.[0-9]{1,3}\.[0-9]{1,3}\.[0-9]{1,3})]. *)
Inductive atom : Type :=
| Digits1to3
| Dot.

Definition ippattern : list atom :=
  [Digits1to3; Dot; Digits1to3; Dot; Digits1to3; Dot; Digits1to3].

(** Exactly [k] leading digits. *)
Fixpoint take_digits (k : nat) (l : list ascii) : option (list ascii * list ascii) :=
  match k with
  | O => Some ([], l)
  | S k' =>
      match l with
      | c :: l' =>
          if is_digit c then
            match take_digits k' l' with
            | Some (ds, rest) => Some (c :: ds, rest)
            | None => None
            end
          else None
      | [] => None
      end
  end.

(** A match of the pattern at the start of the text: the repetition is
    greedy and gives digits back when the rest fails. *)
Fixpoint match_here (pat : list atom) (l : list ascii) : option (list ascii) :=
  match pat with
  | [] => Some []
  | Dot :: pat' =>
      match l with
      | c :: l' =>
          if ascii_eqb c "." then
            match match_here pat' l' with
            | Some m => Some (c :: m)
            | None => None
            end
          else None
      | [] => None
      end
  | Digits1to3 :: pat' =>
      let attempt (k : nat) :=
        match take_digits k l with
        | Some (ds, rest) =>
            match match_here pat' rest with
            | Some m => Some (ds ++ m)%list
            | None => None
            end
        | None => None
        end in
      match attempt 3%nat with
      | Some m => Some m
      | None =>
          match attempt 2%nat with
          | Some m => Some m
          | None => attempt 1%nat
          end
      end
  end.

(** [ippattern.search(ipStr)]: the leftmost match, [None] when there is
    none ([.group(1)] then raises). *)
Fixpoint search (l : list ascii) : option (list ascii) :=
  match match_here ippattern l with
  | Some m => Some m
  | None =>
      match l with
      | [] => None
      | _ :: l' => search l'
      end
  end.

(** How [buildAllowedIPs] ends: by [exit(code)], or by returning a flag
    with the global [allowedIPs] as it has left it. *)
Inductive build_result : Type :=
| BuildExit (code : Z)
| BuildReturn (ok : bool) (allowedIPs : list string).

(** The loop over the comma-separated items. *)
Fixpoint build_each (tmpList : list (list ascii)) (allowedIPs : list string)
  : build_result :=
  match tmpList with
  | [] => BuildReturn true allowedIPs
  | curItem :: tmpList' =>
      let ipStr := remove_char " " curItem in
      match search ipStr with
      | None => BuildExit 3
      | Some ipValue =>
          if (0 <? length ipValue)%nat
          then build_each tmpList' (allowedIPs ++ [text ipValue])%list
          else build_each tmpList' allowedIPs
      end
  end.

Definition buildAllowedIPs (allowedIPstr : string) : build_result :=
  let allowedIPs : list string := [] in
  if (0 <? String.length allowedIPstr)%nat then
    if contains_char "," (chars allowedIPstr) then
      build_each (split_on "," (chars allowedIPstr)) allowedIPs
    else
      let ipStr := remove_char " " (chars allowedIPstr) in
      match search ipStr with
      | None => BuildReturn false allowedIPs
      | Some ipValue =>
          if (0 <? length ipValue)%nat
          then BuildReturn true (allowedIPs ++ [text ipValue])%list
          else BuildReturn true allowedIPs
      end
  else BuildReturn true allowedIPs.

(** *** Start-up *)

(** What [parse_args] returns.  [--port] is declared without a [type]:
    its default is the integer 8181, and a port given on the command
    line is the text of the argument. *)
Record arguments : Type := {
  port : pyval;
  settings_path : string;
  allowedips : string;
  debug_http : bool
}.

(** What start-up asks of the host: whether a path exists, and whether
    the port of a given number can be bound. *)
Record host : Type := {
  path_exists : string -> bool;
  port_open : Z -> bool
}.

(** How the process goes on from start-up: it exits with a code, it is
    ended by an exception that nothing catches (a traceback, and exit
    status 1), or it serves requests with the allow-list it has built. *)
Inductive startup : Type :=
| Exit (code : Z)
| Dies (e : pyexc)
| Serving (on_port : pyval) (allowedIPs : list string).

(** [MultithreadHTTPServer(('', port), AgentRequestHandler)]: the
    socket's [bind] takes an integer from 0 to 65535 for the port,
    raises [TypeError] for a text and [OverflowError] for an integer out
    of range, and [OSError] when the port cannot be bound. *)
Definition server_bind (h : host) (port : pyval) : outcome unit :=
  match port with
  | PyInt n =>
      if (0 <=? n) && (n <=? 65535) then
        if port_open h n then Ret tt else Raise (OSError "bind")
      else Raise OverflowError
  | PyBool b =>
      if port_open h (if b then 1 else 0) then Ret tt else Raise (OSError "bind")
  | _ => Raise (TypeError "bind")
  end.

(** The server comes up on [port]. *)
Definition port_free (h : host) (port : pyval) : bool :=
  match server_bind h port with
  | Ret _ => true
  | Raise _ => false
  end.

(** [CustomAgent.run(port)], up to [httpd.serve_forever()]: only
    [OSError] is caught. *)
Definition run (h : host) (port : pyval) (allowedIPs : list string) : startup :=
  match server_bind h port with
  | Ret _ => Serving port allowedIPs
  | Raise (OSError _) => Exit 1
  | Raise e => Dies e
  end.

(** The [__main__] block.  The value returned by [buildAllowedIPs] is
    not looked at. *)
Definition main (h : host) (args : arguments) : startup :=
  if negb (path_exists h (settings_path args)) then Exit 1
  else if negb (path_exists h (settings_path args +:+ "/settings.json")) then Exit 1
  else
    match buildAllowedIPs (allowedips args) with
    | BuildExit code => Exit code
    | BuildReturn _ allowedIPs => run h (port args) allowedIPs
    end.

(** *** The request handler *)

(** A request as the handler sees it: [s.client_address] (the peer's
    address first), [s.path], and what [urlparse(s.path)] makes of it,
    the path component and the query as read by [parse_qs]; [urlparse]
    may also raise. *)
Record parsed_url : Type := {
  url_path : string;
  url_query : query
}.

Record request : Type := {
  client_address : list string;
  path : string;
  urlparse : outcome parsed_url
}.

(** [while url_path.startswith("/") or url_path.startswith("."):
       url_path = url_path[1:]]. *)
Fixpoint strip_leading (url_path : string) : string :=
  match url_path with
  | String c rest =>
      if ascii_eqb c "/" || ascii_eqb c "." then strip_leading rest else url_path
  | EmptyString => EmptyString
  end.

Definition forbidden_page : string :=
  "<html><body><p>Connections not authorized from your IP address</p>" +:+
  "</body></html>".

(** [s.client_address[0] not in allowedIPs]. *)
Definition not_in (x : string) (l : list string) : bool :=
  negb (existsb (String.eqb x) l).

(** [key in param_data.keys()]. *)
Definition has_key (param_data : pydict) (key : string) : bool :=
  match param_data !! key with Some _ => true | None => false end.

(** The float literals of the handler. *)
Definition f_24 : spec_float := Eval vm_compute in F64.of_decimal false 24 0.
Definition f_1766 : spec_float := Eval vm_compute in F64.of_decimal false 1766 0.
Definition f_24e6 : spec_float := Eval vm_compute in F64.of_decimal false 24 6.
Definition f_1766e6 : spec_float := Eval vm_compute in F64.of_decimal false 1766 6.
Definition f_2_4e6 : spec_float := Eval vm_compute in F64.of_decimal false 24 5.

(** Reading a local variable of [do_GET]: a name that is assigned
    somewhere in the function is local to all of it, and reading it on a
    path that has not assigned it raises [UnboundLocalError]. *)
Definition read_local {A} (name : string) (v : option A) : M Control.store A :=
  match v with
  | Some a => ret a
  | None => raise (UnboundLocalError name)
  end.

Section Handler.
Variable P : platform.
Variable allowedIPs : list string.
Variable doa_feed : Feed.feed.

(** [except Exception as e: return_error_json(s, 3, "ERROR setting value: " + str(e))]. *)
Definition error_setting (e : pyexc) : M Control.store http_response :=
  ret (return_error_json 3 ("ERROR setting value: " +:+ str_exc P e)).

Definition api_get_config : M Control.store http_response :=
  try_except
    (settings <- Control.get_config ;;
     ret (return_json_dict (<["settings" := PyDict settings]> build_base_dict)))
    (fun e => ret (return_error_json 1 ("ERROR getting config: " +:+ str_exc P e))).

Definition api_set_frequency (req_query : query) : M Control.store http_response :=
  let param_data := param_data_to_dict req_query in
  if negb (has_key param_data "freq") then
    ret (return_error_json 1
           "Correct key not specified in request.  Expecting freq=<value>")
  else
    try_except
      (v <- lift (Control.subscript param_data "freq") ;;
       new_freq <- lift (Builtins.py_float v) ;;
       if F64.ltb new_freq f_24 || F64.gtb new_freq f_1766 then
         ret (return_error_json 1
                "Frequency range error.  Value should be in MHz and range from 24.0 - 1766.0")
       else
         gain <- (if has_key param_data "gain" then
                    g <- lift (Control.subscript param_data "gain") ;;
                    g <- lift (Builtins.py_float g) ;;
                    ret (Some g)
                  else ret None) ;;
         match gain with
         | None => Control.set_frequency (PyFloat new_freq) true
         | Some gain =>
             Control.set_frequency (PyFloat new_freq) false ;;;
             Control.set_gain gain true
         end ;;;
         ret (return_json_dict build_base_dict))
      error_setting.

(** [doa_info] is a list whenever the fetch returns, so the test
    [doa_info is not None] holds and [doa_info[0]] is evaluated. *)
Definition api_get_doa : M Control.store http_response :=
  match fst (Feed.fetch_and_process_csv P doa_feed) with
  | Raise e => ret (return_error_json 1 ("ERROR getting config: " +:+ str_exc P e))
  | Ret rows =>
      let doa_info := PyList (PyDict <$> rows) in
      let responsedict := build_base_dict in
      match doa_info with
      | PyNone => ret (return_json_dict (<["doa_info" := PyNone]> responsedict))
      | PyList (first :: _) =>
          ret (return_json_dict (<["doa_info" := first]> responsedict))
      | PyList [] => raise IndexError
      | _ => raise (TypeError "subscript")
      end
  end.

Definition api_set_frequency_and_vfo (req_query : query) : M Control.store http_response :=
  let param_data := param_data_to_dict req_query in
  if negb (has_key param_data "freq") then
    ret (return_error_json 1
           "Correct key not specified in request.  Expecting freq=<value>")
  else if negb (has_key param_data "vfo_index") then
    ret (return_error_json 1
           "Correct key not specified in request.  Expecting vfo_index=<index>")
  else if negb (has_key param_data "vfo_freq") then
    ret (return_error_json 1
           "Correct key not specified in request.  Expecting vfo_freq=<value in Hz>")
  else
    try_except
      (v <- lift (Control.subscript param_data "freq") ;;
       new_freq <- lift (Builtins.py_float v) ;;
       if F64.ltb new_freq f_24 || F64.gtb new_freq f_1766 then
         ret (return_error_json 1
                "Frequency range error.  Value should be in MHz and range from 24.0 - 1766.0")
       else
         v <- lift (Control.subscript param_data "vfo_index") ;;
         index <- lift (Builtins.py_int v) ;;
         v <- lift (Control.subscript param_data "vfo_freq") ;;
         vfo_freq <- lift (Builtins.py_float v) ;;
         if F64.ltb vfo_freq f_24e6 || F64.gtb vfo_freq f_1766e6 then
           ret (return_error_json 1
                  "VFO Frequency range error.  Value should be in Hz and range from 24000000 - 1766000000")
         else
           Control.set_frequency (PyFloat new_freq) false ;;;
           Control.set_vfo_frequency index (PyFloat vfo_freq) true ;;;
           ret (return_json_dict build_base_dict))
      error_setting.

Definition api_set_gain (req_query : query) : M Control.store http_response :=
  let param_data := param_data_to_dict req_query in
  if negb (has_key param_data "gain") then
    ret (return_error_json 1
           "Correct key not specified in request.  Expecting gain=<value>")
  else
    try_except
      (v <- lift (Control.subscript param_data "gain") ;;
       gain <- lift (Builtins.py_float v) ;;
       Control.set_gain gain true ;;;
       ret (return_json_dict build_base_dict))
      error_setting.

(** The call is [krakensdr.set_output_vfo(index)]: one argument. *)
Definition api_set_output_vfo (req_query : query) : M Control.store http_response :=
  let param_data := param_data_to_dict req_query in
  if negb (has_key param_data "vfo_index") then
    ret (return_error_json 1
           "Correct key not specified in request.  Expecting vfo_index=<index>")
  else
    try_except
      (v <- lift (Control.subscript param_data "vfo_index") ;;
       index <- lift (Builtins.py_int v) ;;
       Control.call_set_output_vfo [PyInt index] ;;;
       ret (return_json_dict build_base_dict))
      error_setting.

Definition api_en_optimize_short_bursts (req_query : query) : M Control.store http_response :=
  let param_data := param_data_to_dict req_query in
  if negb (has_key param_data "state") then
    ret (return_error_json 1
           "Correct key not specified in request.  Expecting state=[true|false]")
  else
    try_except
      (state <- lift (Control.subscript param_data "state") ;;
       Control.optimize_short_bursts state true ;;;
       ret (return_json_dict build_base_dict))
      error_setting.

Definition api_set_vfo_frequency (req_query : query) : M Control.store http_response :=
  let param_data := param_data_to_dict req_query in
  if negb (has_key param_data "vfo_index") then
    ret (return_error_json 1
           "Correct key not specified in request.  Expecting vfo_index=<index>")
  else if negb (has_key param_data "vfo_freq") then
    ret (return_error_json 1
           "Correct key not specified in request.  Expecting vfo_freq=<value in Hz>")
  else
    try_except
      (v <- lift (Control.subscript param_data "vfo_index") ;;
       index <- lift (Builtins.py_int v) ;;
       v <- lift (Control.subscript param_data "vfo_freq") ;;
       freq <- lift (Builtins.py_float v) ;;
       if F64.ltb freq f_24e6 || F64.gtb freq f_1766e6 then
         ret (return_error_json 1
                "Frequency range error.  Value should be in Hz and range from 24000000 - 1766000000")
       else
         Control.set_vfo_frequency index (PyFloat freq) true ;;;
         ret (return_json_dict build_base_dict))
      error_setting.

(** The call is [krakensdr.set_vfo_bandwidth(index, freq)]; [freq] is a
    local of [do_GET] that only the [set_vfo_frequency] branch assigns. *)
Definition api_set_vfo_bandwidth (req_query : query) : M Control.store http_response :=
  let param_data := param_data_to_dict req_query in
  if negb (has_key param_data "vfo_index") then
    ret (return_error_json 1
           "Correct key not specified in request.  Expecting vfo_index=<index>")
  else if negb (has_key param_data "vfo_bw") then
    ret (return_error_json 1
           "Correct key not specified in request.  Expecting vfo_bw=<value in Hz>")
  else
    try_except
      (let freq : option spec_float := None in
       v <- lift (Control.subscript param_data "vfo_index") ;;
       index <- lift (Builtins.py_int v) ;;
       v <- lift (Control.subscript param_data "vfo_bw") ;;
       bw <- lift (Builtins.py_float v) ;;
       if Control.float_eq_int bw 0 || F64.gtb bw f_2_4e6 then
         ret (return_error_json 1
                "Bandwidth error.  Value should be in Hz and not exceed RTLSDR bandwidth")
       else
         freq <- read_local "freq" freq ;;
         Control.set_vfo_bandwidth index (PyFloat freq) true ;;;
         ret (return_json_dict build_base_dict))
      error_setting.

(** The call is [krakensdr.set_coordinates(index, param_data)]; [index]
    is a local of [do_GET] that this branch never assigns. *)
Definition api_set_coordinates (req_query : query) : M Control.store http_response :=
  let param_data := param_data_to_dict req_query in
  if negb (has_key param_data "latitude") || negb (has_key param_data "longitude") then
    ret (return_error_json 1
           "Correct key not specified in request.  latitude and longitude")
  else
    try_except
      (let index : option Z := None in
       index <- read_local "index" index ;;
       Control.call_set_coordinates [PyInt index; PyDict param_data] ;;;
       ret (return_json_dict build_base_dict))
      error_setting.

(** [except Exception as e:
      return_error_json(s, 5, "Unhandled GET exception: " + str(e))]. *)
Definition error_unhandled (e : pyexc) : M Control.store http_response :=
  ret (return_error_json 5 ("Unhandled GET exception: " +:+ str_exc P e)).

(** The [if]/[elif] chain on [s.path], in the order of the source, inside
    the outer [try]. *)
Definition dispatch (s_path : string) (req_query : query) : M Control.store http_response :=
  try_except
    (if String.eqb s_path "/api/krakensdr/get_config" then api_get_config
     else if startswith s_path "/api/krakensdr/set_frequency" then
       api_set_frequency req_query
     else if String.eqb s_path "/api/krakensdr/get_doa" then api_get_doa
     else if startswith s_path "/api/krakensdr/set_frequency_and_vfo" then
       api_set_frequency_and_vfo req_query
     else if startswith s_path "/api/krakensdr/set_gain" then
       api_set_gain req_query
     else if startswith s_path "/api/krakensdr/set_output_vfo" then
       api_set_output_vfo req_query
     else if startswith s_path "/api/krakensdr/en_optimize_short_bursts" then
       api_en_optimize_short_bursts req_query
     else if startswith s_path "/api/krakensdr/set_vfo_frequency" then
       api_set_vfo_frequency req_query
     else if startswith s_path "/api/krakensdr/set_vfo_bandwidth" then
       api_set_vfo_bandwidth req_query
     else if startswith s_path "/api/krakensdr/set_coordinates" then
       api_set_coordinates req_query
     else ret (return_error_json 5 "Unknown request"))
    error_unhandled.

(** [do_GET].  The module-level [html_dir] is [None] and nothing assigns
    it, so the direct-serving block between the redirect and the API
    dispatch is never entered and is left out. *)
Definition do_GET (s : request) : M Control.store http_response :=
  match client_address s with
  | [] => ret NoResponse
  | client :: _ =>
      if (0 <? length allowedIPs)%nat && not_in client allowedIPs then
        ret (Html 403 forbidden_page)
      else
        match urlparse s with
        | Raise e => ret (return_error_html 1 (str_exc P e))
        | Ret req =>
            if (String.length (strip_leading (url_path req)) =? 0)%nat then
              ret (Redirect 302 "/index.html")
            else dispatch (path s) (url_query req)
        end
  end.

End Handler.

(** The query of a request that gets as far as the API dispatch: its
    address passes the allow-list, its URL parses and is not the root. *)
Definition api_query (allowedIPs : list string) (s : request) : option query :=
  match client_address s with
  | [] => None
  | client :: _ =>
      if (0 <? length allowedIPs)%nat && not_in client allowedIPs then None
      else
        match urlparse s with
        | Raise _ => None
        | Ret req =>
            if (String.length (strip_leading (url_path req)) =? 0)%nat then None
            else Some (url_query req)
        end
  end.

End Agent.

(** *** POST requests *)

Module Post.
Import Agent.




End Post.

(** ** A reference host

    A Linux host whose local time zone is UTC, used to run the model on
    concrete requests.  Dates follow the proleptic Gregorian calendar;
    [datetime] holds years 1 to 9999 and refuses the others with a
    [ValueError], and the C library gives up with an [OSError] on a time
    whose year does not fit its [int]. *)

Module RefHost.

(** Year, month and day of a day count from 1970-01-01. *)
Definition civil_from_days (days : Z) : Z * Z * Z :=
  let z := days + 719468 in
  let era := z / 146097 in
  let doe := z - era * 146097 in
  let yoe := (doe - doe / 1460 + doe / 36524 - doe / 146096) / 365 in
  let doy := doe - (365 * yoe + yoe / 4 - yoe / 100) in
  let mp := (5 * doy + 2) / 153 in
  let d := doy - (153 * mp + 2) / 5 + 1 in
  let m := if mp <? 10 then mp + 3 else mp - 9 in
  let y := yoe + era * 400 + (if m <=? 2 then 1 else 0) in
  (y, m, d).

Definition two_digits (n : Z) : string :=
  if n <? 10 then "0" +:+ pretty n else pretty n.

(** [strftime('%Y-%m-%d %H:%M:%S')] of the second [secs] after the epoch. *)
Definition format_utc (secs : Z) : string :=
  let '(y, m, d) := civil_from_days (secs / 86400) in
  let sod := secs mod 86400 in
  pretty y +:+ "-" +:+ two_digits m +:+ "-" +:+ two_digits d +:+ " " +:+
  two_digits (sod / 3600) +:+ ":" +:+ two_digits (sod mod 3600 / 60) +:+ ":" +:+
  two_digits (sod mod 60).

Definition utc_clock (epoch_ms : Z) : outcome (string * string) :=
  let secs := epoch_ms / 1000 in
  let '(y, _, _) := civil_from_days (secs / 86400) in
  if (1 <=? y) && (y <=? 9999) then
    Ret (format_utc secs, format_utc secs +:+ " UTC")
  else if (Z.abs y <? 2 ^ 31) then Raise (ValueError "year is out of range")
  else Raise (OSError "Value too large for defined data type").

(** The class of an exception and what it carries, as a text. *)
Definition describe (e : pyexc) : string :=
  match e with
  | PlainException msg => msg
  | ValueError what => "ValueError: " +:+ what
  | TypeError what => "TypeError: " +:+ what
  | UnboundLocalError name => "UnboundLocalError: " +:+ name
  | IndexError => "list index out of range"
  | KeyError key => "KeyError: " +:+ key
  | OverflowError => "OverflowError"
  | OSError what => "OSError: " +:+ what
  | RequestException => "RequestException"
  | CsvError => "csv.Error"
  end.

Definition linux_utc : platform :=
  {| clock := utc_clock; lib_text := describe |}.

(** A settings document as the device ships it, cut down to two keys. *)
Definition settings0 : pydict :=
  <["center_freq" := PyFloat (F64.of_decimal false 4165 (-1))]>
    (<["uniform_gain" := PyFloat (F64.of_decimal false 157 (-1))]> ∅).

Definition store0 : Control.store :=
  {| Control.disk := Control.Document settings0;
     Control.disk_writable := true;
     Control.staged := None;
     Control.writes := [] |}.

(** A request from 127.0.0.1 for [api] with the given query. *)
Definition get (api : string) (params : list (string * list string)) : Agent.request :=
  {| Agent.client_address := ["127.0.0.1"; "50000"];
     Agent.path := api;
     Agent.urlparse :=
       Ret {| Agent.url_path := api; Agent.url_query := list_to_map params |} |}.

(** A feed row of 377 columns: the thirteen base cells, four reserved
    cells and 360 equal power cells. *)
Definition feed_row (base : list string) (power : string) : list string :=
  (base ++ ["R"; "R"; "R"; "R"] ++ repeat power 360)%list.

Definition good_base : list string :=
  ["1700000000000"; "123.0"; "9.5"; "-40.2"; "416500000"; "UCA"; "120";
   "KRAKEN1"; "47.5"; "19.04"; "0.0"; "271.3"; "GPS"].

(** A host on which the settings are in place and the port is free, and
    the command line with its defaults and a given [--allowedips]. *)
Definition ready : Agent.host :=
  {| Agent.path_exists := fun _ => true; Agent.port_open := fun _ => true |}.

Definition arguments_with (allowed : string) : Agent.arguments :=
  {| Agent.port := PyInt 8181;
     Agent.settings_path := "/home/krakenrf/krakensdr_doa/krakensdr_doa/_share";
     Agent.allowedips := allowed;
     Agent.debug_http := false |}.

End RefHost.

(** ** Vocabulary of the statements *)

(** The dictionary the next [update_value] works on: the staged copy
    when there is one, else the document on disk. *)
Definition working_copy (st : Control.store) : option pydict :=
  match Control.staged st with
  | Some s => Some s
  | None =>
      match Control.disk st with
      | Control.Document d => Some d
      | _ => None
      end
  end.

(** The inner [try] of the loop completes on the row: its thirteen base
    cells are there and all of them convert. *)
Definition base_fields_convert (P : platform) (row : list string) : bool :=
  match Feed.base_comprehension row (seq 0 (length Feed.base_fields)) ∅ with
  | Ret base_data =>
      match Feed.convert_fields P base_data with
      | Ret _ => true
      | Raise _ => false
      end
  | Raise _ => false
  end.

(** The record a turn of the loop appends, if any. *)
Definition appended (turn : outcome (option pydict) * list Feed.diagnostic)
  : option pydict :=
  match fst turn with
  | Ret (Some record) => Some record
  | _ => None
  end.

(** A value without parts that [json.dump] writes: [None], a boolean, a
    float, a text, or an integer of at most 4300 digits. *)
Definition scalar (v : pyval) : bool :=
  match v with
  | PyList _ | PyDict _ => false
  | _ => Control.encodable v
  end.

(** A step of the bridge that leaves the settings file alone: the
    document on disk and the log of writes are as before (the staged copy
    may differ). *)
Definition quiet (st st' : Control.store) : Prop :=
  Control.disk st' = Control.disk st /\
  Control.writes st' = Control.writes st /\
  Control.disk_writable st' = Control.disk_writable st.

(** A step of the bridge that writes the settings file exactly once. *)
Definition wrote_once (st st' : Control.store) : Prop :=
  exists d,
    Control.disk st' = Control.Document d /\
    Control.writes st' = d :: Control.writes st /\
    Control.disk_writable st' = Control.disk_writable st.

(** The keys [set_coordinates] knows. *)
Definition coordinate_keys : list string :=
  ["latitude"; "longitude"; "heading"; "location_source"; "gps_fixed_heading";
   "gps_min_speed"; "gps_min_speed_duration"].



(** Computations of the handler, by what they may do to the settings
    file: [still] ones never change the bridge, [stays] ones never write,
    [calm] ones write at most once and not at all when they raise, and
    [tidy] ones moreover answer with an envelope. *)
Definition still {A} (m : Eff.M Control.store A) : Prop :=
  forall st, snd (m st) = st.


Definition calm {A} (m : Eff.M Control.store A) : Prop :=
  forall st,
    match m st with
    | (Ret _, st') => quiet st st' \/ wrote_once st st'
    | (Raise _, st') => quiet st st'
    end.




(** The base fields that the parser converts to floats, and those it
    keeps as text. *)
Definition numeric_fields : list string :=
  ["Max DOA Angle (Degrees)"; "Confidence Value"; "RSSI Power (dB)";
   "Channel Frequency (Hz)"; "Latency (ms)"; "Latitude"; "Longitude";
   "GPS Heading"; "Compass Heading"].

Definition text_fields : list string :=
  ["Antenna Arrangement"; "Station ID"; "Main Heading Sensor Used"].

(** One to three decimal digits. *)
Definition digit_group (l : list ascii) : bool :=
  (1 <=? length l)%nat && (length l <=? 3)%nat && forallb Text.is_digit l.

(** Four groups of one to three digits with a dot between them; the
    groups are not held to 255. *)
Definition dotted_quad (m : list ascii) : Prop :=
  exists a b c d : list ascii,
    m = (a ++ "."%char :: b ++ "."%char :: c ++ "."%char :: d)%list /\
    digit_group a = true /\ digit_group b = true /\
    digit_group c = true /\ digit_group d = true.

(** The texts a list of pattern pieces stands for. *)
Fixpoint matches (pat : list Agent.atom) (m : list ascii) : Prop :=
  match pat with
  | [] => m = []
  | Agent.Dot :: pat' => exists m', m = "."%char :: m' /\ matches pat' m'
  | Agent.Digits1to3 :: pat' =>
      exists ds m', m = (ds ++ m')%list /\ digit_group ds = true /\ matches pat' m'
  end.

(** The entry of a comma-separated allow-list an item stands for, with
    its blanks removed. *)
Definition entry (curItem : list ascii) : list ascii :=
  Text.remove_char " " curItem.

(** The letters a .. z made capitals, every other character kept; and a
    text that spells a word of capitals up to the case of its letters. *)
Definition capital (c : ascii) : ascii :=
  if (97 <=? Text.code c) && (Text.code c <=? 122)
  then ascii_of_nat (nat_of_ascii c - 32) else c.

Definition spells (v word : string) : bool :=
  String.eqb (Text.text (map capital (Text.chars v))) word.

(** The capital letters A .. Z. *)
Definition is_capital (c : ascii) : bool :=
  (65 <=? Text.code c) && (Text.code c <=? 90).

(** A word of capitals in which no S follows an S. *)
Fixpoint plain_word (t : list ascii) : bool :=
  match t with
  | [] => true
  | c :: t' =>
      is_capital c &&
      match t' with
      | c' :: _ => negb (Text.ascii_eqb c "S" && Text.ascii_eqb c' "S")
      | [] => true
      end && plain_word t'
  end.

(** [str.upper()] on one character, against the capital of its letter:
    the sharp s gives SS and is no capital; every other character gives
    one character, the same as soon as either is a capital. *)
Definition upper_char_checked (c : ascii) : bool :=
  match Text.upper_char c with
  | [u] =>
      implb (is_capital u || is_capital (capital c)) (Text.ascii_eqb u (capital c))
  | [a; b] =>
      Text.ascii_eqb a "S" && Text.ascii_eqb b "S" && negb (is_capital (capital c))
  | _ => false
  end.

(** A [Content-Length] header that reads as a positive integer. *)
Definition announces_body (content_length : option string) : bool :=
  match content_length with
  | Some v =>
      match Builtins.int_of_string v with
      | Some n => 0 <? n
      | None => false
      end
  | None => false
  end.

(** * Properties *)

Import Eff Agent.

(** ** Routing *)

Lemma startswith_split (s p : string) :
  Text.startswith s p = true -> exists t, s = (p ++ t)%string.
Proof.
  unfold Text.startswith. revert s.
  induction p as [|c p IH]; intros s H.
  - exists s. reflexivity.
  - destruct s as [|c' s]; simpl in H; [discriminate|].
    destruct (ascii_dec c c') as [->|]; [|discriminate].
    destruct (IH _ H) as [t ->]. exists t. reflexivity.
Qed.

Lemma do_GET_dispatch P allowedIPs doa_feed s q :
  api_query allowedIPs s = Some q ->
  do_GET P allowedIPs doa_feed s = dispatch P doa_feed (path s) q.
Proof.
  unfold api_query, do_GET. intros H.
  destruct (client_address s) as [|client rest]; [discriminate|].
  destruct ((0 <? length allowedIPs)%nat && not_in client allowedIPs); [discriminate|].
  destruct (urlparse s) as [req|e]; [|discriminate].
  destruct (String.length (strip_leading (url_path req)) =? 0)%nat; [discriminate|].
  congruence.
Qed.

(** Decides the tests of [dispatch] on a path known to begin with
    [prefix]: the test for [prefix] itself is the hypothesis, the others
    are computed. *)
Ltac route H :=
  let t := fresh "t" in
  let Ht := fresh "Ht" in
  destruct (startswith_split _ _ H) as [t Ht];
  unfold dispatch; unfold Text.startswith in *;
  rewrite ?H; rewrite Ht; clear H Ht;
  repeat match goal with
    | |- context [String.eqb ?a ?b] =>
        let r := eval vm_compute in (String.eqb a b) in
        match r with true => idtac | false => idtac end;
        change (String.eqb a b) with r
    | |- context [String.prefix ?a ?b] =>
        let r := eval vm_compute in (String.prefix a b) in
        match r with true => idtac | false => idtac end;
        change (String.prefix a b) with r
    end;
  cbv iota.

Lemma dispatch_set_frequency P doa_feed s_path q :
  Text.startswith s_path "/api/krakensdr/set_frequency" = true ->
  dispatch P doa_feed s_path q =
  try_except (api_set_frequency P q) (error_unhandled P).
Proof. intros H. route H. reflexivity. Qed.

Lemma dispatch_set_output_vfo P doa_feed s_path q :
  Text.startswith s_path "/api/krakensdr/set_output_vfo" = true ->
  dispatch P doa_feed s_path q =
  try_except (api_set_output_vfo P q) (error_unhandled P).
Proof. intros H. route H. reflexivity. Qed.

Lemma dispatch_set_vfo_bandwidth P doa_feed s_path q :
  Text.startswith s_path "/api/krakensdr/set_vfo_bandwidth" = true ->
  dispatch P doa_feed s_path q =
  try_except (api_set_vfo_bandwidth P q) (error_unhandled P).
Proof. intros H. route H. reflexivity. Qed.

Lemma dispatch_set_coordinates P doa_feed s_path q :
  Text.startswith s_path "/api/krakensdr/set_coordinates" = true ->
  dispatch P doa_feed s_path q =
  try_except (api_set_coordinates P q) (error_unhandled P).
Proof. intros H. route H. reflexivity. Qed.

Lemma dispatch_get_doa P doa_feed q :
  dispatch P doa_feed "/api/krakensdr/get_doa" q =
  try_except (api_get_doa P doa_feed) (error_unhandled P).
Proof. reflexivity. Qed.

(** The branch written for [set_frequency_and_vfo] is never taken: its
    paths begin with [/api/krakensdr/set_frequency] and are served by
    the [set_frequency] branch, which stands first. *)
Lemma dispatch_set_frequency_and_vfo P doa_feed s_path q :
  Text.startswith s_path "/api/krakensdr/set_frequency_and_vfo" = true ->
  dispatch P doa_feed s_path q =
  try_except (api_set_frequency P q) (error_unhandled P).
Proof.
  intros H. apply dispatch_set_frequency.
  destruct (startswith_split _ _ H) as [t ->]. reflexivity.
Qed.

(** ** Envelopes *)

Lemma errcode_return_error_json (err_code : Z) (err_msg : string) :
  errcode (return_error_json err_code err_msg) = Some err_code.
Proof.
  unfold return_error_json, return_json_dict, errcode.
  rewrite lookup_insert_ne by discriminate.
  rewrite lookup_insert_eq. reflexivity.
Qed.

Lemma errcode_build_base_dict : errcode (return_json_dict build_base_dict) = Some 0.
Proof. reflexivity. Qed.

Lemma has_key_lookup (d : pydict) (key : string) :
  has_key d key = true -> exists v, d !! key = Some v.
Proof. unfold has_key. destruct (d !! key) as [v|]; [eauto|discriminate]. Qed.

Lemma subscript_lookup (d : pydict) (key : string) (v : pyval) :
  d !! key = Some v -> Control.subscript d key = Ret v.
Proof. unfold Control.subscript. intros ->. reflexivity. Qed.

(** Unfolds the monad of a handler branch. *)
Ltac run_eff :=
  unfold try_except, bind, lift, ret, raise, gets, modify, read_local,
    error_setting, error_unhandled.

(** ** Float comparisons *)

(** The float literals of the source and the entries of the gain table
    are canonical binary64 values in the sense of the library. *)
Example literals_are_binary64 :
  forallb (valid_binary F64.prec F64.emax)
    [f_24; f_1766; f_24e6; f_1766e6; f_2_4e6] = true /\
  forallb (fun v => match v with
                    | PyFloat f => valid_binary F64.prec F64.emax f
                    | _ => true
                    end) Control.valid_gains = true /\
  length Control.valid_gains = 29%nat.
Proof. repeat split. Qed.

Lemma SFcompare_antisym (x y : spec_float) :
  SFcompare y x = option_map CompOpp (SFcompare x y).
Proof.
  destruct x as [sx|sx| |sx mx ex], y as [sy|sy| |sy my ey]; cbn;
    try reflexivity;
    try (destruct sx; reflexivity);
    try (destruct sy; reflexivity);
    try (destruct sx, sy; reflexivity).
  pose proof (Pos.compare_cont_antisym mx my Eq) as Hm. cbn in Hm.
  destruct sx, sy; cbn; try reflexivity;
    rewrite (Z.compare_antisym ex ey);
    destruct (ex ?= ey); cbn; try reflexivity;
    rewrite <- Hm;
    destruct (Pos.compare_cont Eq mx my); reflexivity.
Qed.

(** [x <= y] excludes [y < x]. *)
Lemma leb_not_gtb (x y : spec_float) :
  F64.leb x y = true -> F64.ltb y x = false.
Proof.
  unfold F64.leb, F64.ltb, SFleb, SFltb. rewrite (SFcompare_antisym x y).
  destruct (SFcompare x y) as [[]|]; cbn; congruence.
Qed.

(** Away from NaN the order is total: [x <= y] is the negation of
    [y < x]. *)
Lemma leb_negb_gtb (x y : spec_float) :
  F64.is_nan x = false -> F64.is_nan y = false ->
  F64.leb x y = negb (F64.ltb y x).
Proof.
  unfold F64.leb, F64.ltb, SFleb, SFltb. intros Hx Hy.
  rewrite (SFcompare_antisym x y).
  destruct x as [sx|sx| |sx mx ex], y as [sy|sy| |sy my ey];
    try discriminate; cbn;
    try (destruct sx; reflexivity);
    try (destruct sy; reflexivity);
    try (destruct sx, sy; reflexivity).
  destruct sx, sy; cbn; try reflexivity;
    destruct (ex ?= ey); cbn; try reflexivity;
    destruct (Pos.compare_cont Eq mx my); reflexivity.
Qed.

(** The range test of the handler lets a frequency through exactly when
    it lies in 24.0 .. 1766.0, provided it is a number. *)
Lemma range_test_spec (f : spec_float) :
  F64.is_nan f = false ->
  F64.ltb f f_24 || F64.gtb f f_1766 = false <->
  F64.leb f_24 f = true /\ F64.leb f f_1766 = true.
Proof.
  intros Hf. unfold F64.gtb.
  rewrite (leb_negb_gtb f_24 f) by (assumption || reflexivity).
  rewrite (leb_negb_gtb f f_1766) by (assumption || reflexivity).
  fold (F64.ltb f_1766 f).
  destruct (F64.ltb f f_24), (F64.ltb f_1766 f); cbn; intuition congruence.
Qed.

(** A NaN passes the range test although it is not in the range. *)
Lemma range_test_nan :
  F64.ltb F64.nan f_24 || F64.gtb F64.nan f_1766 = false /\
  F64.leb f_24 F64.nan = false /\ F64.leb F64.nan f_1766 = false.
Proof. repeat split. Qed.

Lemma in_range_passes (f : spec_float) :
  F64.leb f_24 f = true -> F64.leb f f_1766 = true ->
  F64.ltb f f_24 || F64.gtb f f_1766 = false.
Proof.
  intros H1 H2. unfold F64.gtb.
  rewrite (leb_not_gtb _ _ H1). apply (leb_not_gtb _ _ H2).
Qed.

(** ** The setters that never get through *)

(** C3, as the code has it.  A [set_output_vfo] request that carries
    [vfo_index] -- whether or not the value reads as an integer -- is
    answered with errcode 3 and leaves the bridge and the settings file
    untouched: the handler calls [set_output_vfo] with one argument where
    the method requires two, so no index is ever committed. *)
Theorem set_output_vfo_is_refused P allowedIPs doa_feed s q st :
  api_query allowedIPs s = Some q ->
  Text.startswith (path s) "/api/krakensdr/set_output_vfo" = true ->
  has_key (param_data_to_dict q) "vfo_index" = true ->
  exists resp,
    do_GET P allowedIPs doa_feed s st = (Ret resp, st) /\ errcode resp = Some 3.
Proof.
  intros Hq Hpath Hkey.
  rewrite (do_GET_dispatch _ _ _ _ _ Hq), (dispatch_set_output_vfo _ _ _ _ Hpath).
  unfold api_set_output_vfo. rewrite Hkey. cbn [negb].
  destruct (has_key_lookup _ _ Hkey) as [v Hv].
  rewrite (subscript_lookup _ _ _ Hv). run_eff.
  destruct (Builtins.py_int v) as [index|e]; cbn;
    eexists; (split; [reflexivity|apply errcode_return_error_json]).
Qed.

Lemma set_output_vfo_is_refused_witness :
  exists resp,
    do_GET RefHost.linux_utc ["10.0.0.5"] Feed.Unreachable
      {| client_address := ["10.0.0.5"; "40112"];
         path := "/api/krakensdr/set_output_vfo?vfo_index=1";
         urlparse := Ret {| url_path := "/api/krakensdr/set_output_vfo";
                            url_query := {[ "vfo_index" := ["1"] ]} |} |}
      RefHost.store0
    = (Ret resp, RefHost.store0) /\ errcode resp = Some 3.
Proof.
  apply (set_output_vfo_is_refused RefHost.linux_utc ["10.0.0.5"] Feed.Unreachable
           _ {[ "vfo_index" := ["1"] ]} RefHost.store0); reflexivity.
Defined.

(** C2, as the code has it.  A [set_coordinates] request that supplies
    latitude and longitude is answered with errcode 3 and changes
    nothing: the handler reads its local [index], which this branch never
    assigns, before the bridge is called, so no coordinate is written. *)
Theorem set_coordinates_is_refused P allowedIPs doa_feed s q st :
  api_query allowedIPs s = Some q ->
  Text.startswith (path s) "/api/krakensdr/set_coordinates" = true ->
  has_key (param_data_to_dict q) "latitude" = true ->
  has_key (param_data_to_dict q) "longitude" = true ->
  exists resp,
    do_GET P allowedIPs doa_feed s st = (Ret resp, st) /\ errcode resp = Some 3.
Proof.
  intros Hq Hpath Hlat Hlon.
  rewrite (do_GET_dispatch _ _ _ _ _ Hq), (dispatch_set_coordinates _ _ _ _ Hpath).
  unfold api_set_coordinates. rewrite Hlat, Hlon. cbn [negb orb].
  run_eff. cbn.
  eexists; (split; [reflexivity|apply errcode_return_error_json]).
Qed.

Lemma set_coordinates_is_refused_witness :
  exists resp,
    do_GET RefHost.linux_utc [] Feed.Unreachable
      (RefHost.get "/api/krakensdr/set_coordinates?latitude=47.5&longitude=19.04"
         [("latitude", ["47.5"]); ("longitude", ["19.04"])])
      RefHost.store0
    = (Ret resp, RefHost.store0) /\ errcode resp = Some 3.
Proof.
  apply (set_coordinates_is_refused RefHost.linux_utc [] Feed.Unreachable
           _ (list_to_map [("latitude", ["47.5"]); ("longitude", ["19.04"])])
           RefHost.store0); reflexivity.
Defined.

(** The bridge method that the handler fails to reach does commit the
    fields: called with the parameters of such a request it reads the
    document, sets the coordinates as floats and the speed as an integer,
    passes over the key it does not know, and writes once. *)
Example bridge_set_coordinates_commits :
  let coordinates : pydict :=
    list_to_map [("latitude", PyStr "47.5"); ("longitude", PyStr "19.04");
                 ("gps_min_speed", PyStr "3"); ("colour", PyStr "red")] in
  let '(r, st') := Control.set_coordinates coordinates RefHost.store0 in
  (r, length (Control.writes st'),
   match Control.disk st' with
   | Control.Document d =>
       (d !! "latitude", d !! "longitude", d !! "gps_min_speed", d !! "colour")
   | _ => (None, None, None, None)
   end)
  = (Ret tt, 1%nat,
     (Some (PyFloat (F64.of_decimal false 475 (-1))),
      Some (PyFloat (F64.of_decimal false 1904 (-2))),
      Some (PyInt 3), None)).
Proof. vm_compute. reflexivity. Qed.

(** C4, as the code has it.  A [set_vfo_bandwidth] request that carries
    [vfo_index] and [vfo_bw] is never accepted: the answer has errcode 1
    (bandwidth zero or above 2.4e6) or errcode 3 (every other case, among
    them each bandwidth with 0 < vfo_bw <= 2.4e6), and nothing is
    written.  The handler passes its unassigned local [freq] to the
    bridge instead of the bandwidth it has parsed. *)
Theorem set_vfo_bandwidth_is_refused P allowedIPs doa_feed s q st :
  api_query allowedIPs s = Some q ->
  Text.startswith (path s) "/api/krakensdr/set_vfo_bandwidth" = true ->
  has_key (param_data_to_dict q) "vfo_index" = true ->
  has_key (param_data_to_dict q) "vfo_bw" = true ->
  exists resp,
    do_GET P allowedIPs doa_feed s st = (Ret resp, st) /\
    (errcode resp = Some 1 \/ errcode resp = Some 3).
Proof.
  intros Hq Hpath Hidx Hbw.
  rewrite (do_GET_dispatch _ _ _ _ _ Hq), (dispatch_set_vfo_bandwidth _ _ _ _ Hpath).
  unfold api_set_vfo_bandwidth. rewrite Hidx, Hbw. cbn [negb].
  destruct (has_key_lookup _ _ Hidx) as [vi Hvi].
  destruct (has_key_lookup _ _ Hbw) as [vb Hvb].
  rewrite (subscript_lookup _ _ _ Hvi), (subscript_lookup _ _ _ Hvb). run_eff.
  destruct (Builtins.py_int vi) as [index|e]; cbn.
  - destruct (Builtins.py_float vb) as [bw|e]; cbn.
    + destruct (Control.float_eq_int bw 0 || F64.gtb bw f_2_4e6); cbn;
        eexists; (split; [reflexivity|]);
        rewrite errcode_return_error_json; auto.
    + eexists; (split; [reflexivity|]). rewrite errcode_return_error_json; auto.
  - eexists; (split; [reflexivity|]). rewrite errcode_return_error_json; auto.
Qed.

Lemma set_vfo_bandwidth_is_refused_witness :
  exists resp,
    do_GET RefHost.linux_utc [] Feed.Unreachable
      (RefHost.get "/api/krakensdr/set_vfo_bandwidth?vfo_index=0&vfo_bw=1000"
         [("vfo_index", ["0"]); ("vfo_bw", ["1000"])])
      RefHost.store0
    = (Ret resp, RefHost.store0) /\
    (errcode resp = Some 1 \/ errcode resp = Some 3).
Proof.
  apply (set_vfo_bandwidth_is_refused RefHost.linux_utc [] Feed.Unreachable
           _ (list_to_map [("vfo_index", ["0"]); ("vfo_bw", ["1000"])])
           RefHost.store0); reflexivity.
Defined.

(** A bandwidth above zero is not the [bw == 0] of the range test. *)
Lemma positive_not_zero (bw : spec_float) :
  F64.ltb F64.zero bw = true -> Control.float_eq_int bw 0 = false.
Proof.
  destruct bw as [sg|sg| |sg m e]; cbn; try discriminate; try reflexivity.
  destruct sg; [discriminate|]. intros _.
  destruct (e <? 0) eqn:He; [reflexivity|].
  apply Z.ltb_ge in He. apply Z.eqb_neq.
  pose proof (Z.pow_pos_nonneg 2 e). lia.
Qed.

(** In particular each bandwidth with 0 < vfo_bw <= 2.4e6, next to an
    index that reads as an integer, passes the range test and then fails
    on [freq]: errcode 3, nothing written. *)
Lemma set_vfo_bandwidth_in_range_fails P allowedIPs doa_feed s q st
    (vi vb : pyval) (index : Z) (bw : spec_float) :
  api_query allowedIPs s = Some q ->
  Text.startswith (path s) "/api/krakensdr/set_vfo_bandwidth" = true ->
  param_data_to_dict q !! "vfo_index" = Some vi ->
  Builtins.py_int vi = Ret index ->
  param_data_to_dict q !! "vfo_bw" = Some vb ->
  Builtins.py_float vb = Ret bw ->
  F64.ltb F64.zero bw = true ->
  F64.leb bw f_2_4e6 = true ->
  exists resp,
    do_GET P allowedIPs doa_feed s st = (Ret resp, st) /\ errcode resp = Some 3.
Proof.
  intros Hq Hpath Hvi Hi Hvb Hb Hpos Hmax.
  rewrite (do_GET_dispatch _ _ _ _ _ Hq), (dispatch_set_vfo_bandwidth _ _ _ _ Hpath).
  unfold api_set_vfo_bandwidth, has_key. rewrite Hvi, Hvb. cbn [negb].
  rewrite (subscript_lookup _ _ _ Hvi), (subscript_lookup _ _ _ Hvb). run_eff.
  rewrite Hi, Hb. cbv beta iota.
  rewrite (positive_not_zero _ Hpos). unfold F64.gtb.
  rewrite (leb_not_gtb _ _ Hmax). cbn.
  eexists. split; [reflexivity|]. apply errcode_return_error_json.
Qed.

(** ** The DOA feed parser *)

Lemma fields_length : length Feed.fields = 377%nat.
Proof. reflexivity. Qed.

(** The first thirteen field names are the base fields. *)
Lemma fields_base (i : nat) :
  (i < 13)%nat -> Feed.fields !! i = Feed.base_fields !! i.
Proof.
  intros Hi. unfold Feed.fields. apply lookup_app_l. cbn. exact Hi.
Qed.

(** The dictionary built from a row keeps the twelfth cell under
    ["Compass Heading"]. *)
Lemma base_comprehension_compass (row : list string) (base_data : pydict) :
  Feed.base_comprehension row (seq 0 (length Feed.base_fields)) ∅ = Ret base_data ->
  exists cell, row !! 11%nat = Some cell /\
               base_data !! "Compass Heading" = Some (PyStr cell).
Proof.
  cbn [length Feed.base_fields seq Feed.base_comprehension].
  rewrite !fields_base by lia.
  repeat match goal with
    | |- context [Feed.base_fields !! ?i] =>
        let r := eval cbv in (Feed.base_fields !! i) in
        replace (Feed.base_fields !! i) with r by reflexivity
    end.
  destruct (row !! 0%nat); [|discriminate].
  destruct (row !! 1%nat); [|discriminate].
  destruct (row !! 2%nat); [|discriminate].
  destruct (row !! 3%nat); [|discriminate].
  destruct (row !! 4%nat); [|discriminate].
  destruct (row !! 5%nat); [|discriminate].
  destruct (row !! 6%nat); [|discriminate].
  destruct (row !! 7%nat); [|discriminate].
  destruct (row !! 8%nat); [|discriminate].
  destruct (row !! 9%nat); [|discriminate].
  destruct (row !! 10%nat); [|discriminate].
  destruct (row !! 11%nat) as [cell|]; [|discriminate].
  destruct (row !! 12%nat); [|discriminate].
  intros [= <-]. exists cell. split; [reflexivity|].
  rewrite lookup_insert_ne by discriminate.
  apply lookup_insert_eq.
Qed.

(** So the default of [base_data.get("Compass Heading", "NaN")] is never
    the value converted. *)
Lemma compass_default_unused (row : list string) (base_data : pydict) :
  Feed.base_comprehension row (seq 0 (length Feed.base_fields)) ∅ = Ret base_data ->
  exists cell, row !! 11%nat = Some cell /\
    Feed.dict_get base_data "Compass Heading" (PyStr "NaN") = PyStr cell.
Proof.
  intros (cell & Hrow & Hd)%base_comprehension_compass.
  exists cell. split; [assumption|]. unfold Feed.dict_get. rewrite Hd. reflexivity.
Qed.

Lemma float_field_other (key k : string) (d d' : pydict) :
  Feed.float_field key d = Ret d' -> key <> k -> d' !! k = d !! k.
Proof.
  unfold Feed.float_field, Control.obind. intros H Hne.
  destruct (Control.subscript d key); [|discriminate].
  destruct (Builtins.py_float a); [|discriminate].
  injection H as <-. apply lookup_insert_ne. assumption.
Qed.

(** A conversion step that succeeds leaves the other keys alone. *)
Lemma float_field_then (key k : string) (d : pydict)
    (rest : pydict -> outcome pydict) (r : pydict) :
  Control.obind (Feed.float_field key d) rest = Ret r ->
  key <> k ->
  exists d', d' !! k = d !! k /\ rest d' = Ret r.
Proof.
  intros H Hne. destruct (Feed.float_field key d) as [d'|e] eqn:E; [|discriminate].
  exists d'. split; [|exact H]. exact (float_field_other _ _ _ _ E Hne).
Qed.

(** The inner [try] cannot complete on a row whose compass cell is
    empty: every earlier step leaves that cell alone, and [float("")]
    raises. *)
Lemma convert_fields_empty_compass P (base_data : pydict) :
  base_data !! "Compass Heading" = Some (PyStr "") ->
  forall converted, Feed.convert_fields P base_data <> Ret converted.
Proof.
  intros Hc converted H. unfold Feed.convert_fields in H.
  destruct (Control.subscript base_data "Epoch Time"); [|discriminate].
  cbn [Control.obind] in H.
  destruct (Builtins.py_int a) as [epoch|]; [|discriminate].
  cbn [Control.obind] in H.
  destruct (clock P epoch) as [stamps|]; [|discriminate].
  cbn [Control.obind] in H.
  assert (Hc0 : (<["local_timestamp" := PyStr (snd stamps)]>
                   (<["utc_timestamp" := PyStr (fst stamps +:+ "Z")]>
                      (<["Epoch Time" := PyInt epoch]> base_data)))
                !! "Compass Heading" = Some (PyStr "")).
  { rewrite !lookup_insert_ne by discriminate. exact Hc. }
  revert Hc0 H.
  generalize (<["local_timestamp" := PyStr (snd stamps)]>
                (<["utc_timestamp" := PyStr (fst stamps +:+ "Z")]>
                   (<["Epoch Time" := PyInt epoch]> base_data))).
  intros d Hd H.
  do 8 (apply float_field_then with (k := "Compass Heading") in H;
        [|discriminate];
        let d' := fresh "d" in
        let E := fresh "E" in
        destruct H as (d' & E & H); rewrite Hd in E; clear Hd; rename E into Hd;
        clear d; rename d' into d).
  unfold Feed.dict_get in H. rewrite Hd in H. discriminate.
Qed.

(** C8, as the code has it.  A row that lacks its compass heading -- the
    column is absent and the row falls short of 377 columns, or the cell
    is there and empty -- never yields a record: a short row is skipped
    by the length test, and an empty cell makes [float] raise, which
    skips the row (or lets the exception of an earlier step escape).  The
    not-a-number default never applies, since the key is always set. *)
Theorem row_without_compass_heading_is_dropped P (line_number : nat) (row : list string) :
  (length row < length Feed.fields)%nat \/ row !! 11%nat = Some "" ->
  appended (Feed.process_row P line_number row) = None.
Proof.
  intros H. unfold appended, Feed.process_row.
  destruct (length row <? length Feed.fields)%nat eqn:Hlen; [reflexivity|].
  destruct H as [H|H]; [apply Nat.ltb_ge in Hlen; lia|].
  destruct (Feed.base_comprehension row _ ∅) as [base_data|e] eqn:Hbase;
    [|reflexivity].
  destruct (base_comprehension_compass _ _ Hbase) as (cell & Hcell & Hd).
  assert (cell = "") as -> by congruence.
  destruct (Feed.convert_fields P base_data) as [converted|e] eqn:Hconv.
  - exfalso. exact (convert_fields_empty_compass P _ Hd _ Hconv).
  - destruct (is_ValueError e); reflexivity.
Qed.

Lemma row_without_compass_heading_is_dropped_witness :
  appended (Feed.process_row RefHost.linux_utc 1
              (RefHost.feed_row (<[11%nat := ""]> RefHost.good_base) "0.5"))
  = None.
Proof.
  apply (row_without_compass_heading_is_dropped RefHost.linux_utc 1).
  right. reflexivity.
Defined.

(** What happens to the witness row: it is skipped, with the diagnostic
    of a failed conversion. *)
Example empty_compass_row_skipped :
  Feed.fetch_and_process_csv RefHost.linux_utc
    (Feed.Body [RefHost.feed_row (<[11%nat := ""]> RefHost.good_base) "0.5"] false)
  = (Ret [], [Feed.ErrorConverting 1 (ValueError "")]).
Proof. vm_compute. reflexivity. Qed.

(** The same row with a compass cell gives one record, stamped in UTC
    and holding the compass heading and the 360 powers as floats. *)
Example full_row_gives_record :
  match fst (Feed.fetch_and_process_csv RefHost.linux_utc
               (Feed.Body [RefHost.feed_row RefHost.good_base "0.5"] false)) with
  | Ret [record] =>
      (record !! "utc_timestamp", record !! "Compass Heading",
       match record !! "DOA Output" with
       | Some (PyDict doa) => (size doa, doa !! "359")
       | _ => (0%nat, None)
       end)
  | _ => (None, None, (0%nat, None))
  end
  = (Some (PyStr "2023-11-14 22:13:20Z"),
     Some (PyFloat (F64.of_decimal false 2713 (-1))),
     (360%nat, Some (PyFloat (F64.of_decimal false 5 (-1))))).
Proof. vm_compute. reflexivity. Qed.

(** *** Rows that stop the whole fetch *)

(** The position of the power cell of a degree. *)
Lemma doa_cell_index (degree : nat) :
  (length Feed.base_fields + length Feed.reserved_fields + degree)%nat
  = (17 + degree)%nat.
Proof. reflexivity. Qed.

(** A power cell that is not a number makes the comprehension raise
    [ValueError]: the first such cell in the order of the degrees. *)
Lemma doa_comprehension_raises (row : list string) (degrees : list nat)
    (acc : pydict) (k : nat) (cell : string) :
  k ∈ degrees ->
  row !! (17 + k)%nat = Some cell ->
  Builtins.float_of_string cell = None ->
  (forall d, d ∈ degrees -> is_Some (row !! (17 + d)%nat)) ->
  exists what, Feed.doa_comprehension row degrees acc = Raise (ValueError what).
Proof.
  intros Hk Hcell Hbad. revert acc.
  induction degrees as [|d degrees IH]; intros acc Hrow.
  - inversion Hk.
  - cbn [Feed.doa_comprehension]. rewrite doa_cell_index.
    destruct (Hrow d) as [c Hc]; [left|]. rewrite Hc.
    unfold Builtins.py_float.
    destruct (Builtins.float_of_string c) as [f|] eqn:Hf.
    + apply elem_of_cons in Hk as [->|Hk]; [congruence|].
      apply IH; [exact Hk|]. intros d' Hd'. apply Hrow. right. exact Hd'.
    + exists c. reflexivity.
Qed.

(** C5, as the code has it.  The 360 power values are converted after the
    inner [try], so a power cell that is not a number is not a skipped
    row: the [ValueError] leaves [fetch_and_process_csv], which catches
    only [RequestException] and [csv.Error], and reaches the caller; the
    rows that follow are not processed.  Here the first row of the body
    has its 377 columns and base fields that convert, and one bad power
    cell at degree [k]. *)
Theorem fetch_raises_on_bad_power_cell P (row : list string)
    (later : list (list string)) (csv_fails : bool) (k : nat) (cell : string) :
  (length Feed.fields <= length row)%nat ->
  base_fields_convert P row = true ->
  (k < 360)%nat ->
  row !! (17 + k)%nat = Some cell ->
  Builtins.float_of_string cell = None ->
  exists what,
    fst (Feed.fetch_and_process_csv P (Feed.Body (row :: later) csv_fails))
    = Raise (ValueError what).
Proof.
  intros Hlen Hbase Hk Hcell Hbad.
  destruct (doa_comprehension_raises row (seq 0 360) ∅ k cell) as [what Hdoa].
  - apply elem_of_seq. lia.
  - exact Hcell.
  - exact Hbad.
  - intros d [_ Hd]%elem_of_seq. apply lookup_lt_is_Some.
    rewrite fields_length in Hlen. lia.
  - exists what.
    unfold Feed.fetch_and_process_csv. cbn [Feed.process_rows].
    unfold Feed.process_row.
    apply Nat.ltb_ge in Hlen. rewrite Hlen.
    unfold base_fields_convert in Hbase.
    destruct (Feed.base_comprehension row _ ∅) as [base_data|]; [|discriminate].
    destruct (Feed.convert_fields P base_data); [|discriminate].
    rewrite Hdoa. reflexivity.
Qed.

Lemma fetch_raises_on_bad_power_cell_witness :
  exists what,
    fst (Feed.fetch_and_process_csv RefHost.linux_utc
           (Feed.Body
              [<[200%nat := "n/a"]> (RefHost.feed_row RefHost.good_base "0.5");
               RefHost.feed_row RefHost.good_base "0.7"]
              false))
    = Raise (ValueError what).
Proof.
  apply (fetch_raises_on_bad_power_cell RefHost.linux_utc _ _ false 183 "n/a").
  - apply Nat.leb_le. vm_compute. reflexivity.
  - vm_compute. reflexivity.
  - lia.
  - vm_compute. reflexivity.
  - vm_compute. reflexivity.
Defined.

(** The witness feed, run: the second row is a good one and is lost with
    the first. *)
Example bad_power_cell_feed :
  Feed.fetch_and_process_csv RefHost.linux_utc
    (Feed.Body
       [<[200%nat := "n/a"]> (RefHost.feed_row RefHost.good_base "0.5");
        RefHost.feed_row RefHost.good_base "0.7"]
       false)
  = (Raise (ValueError "n/a"), []).
Proof. vm_compute. reflexivity. Qed.

(** The parts of the fetch that do fail soft. *)

Lemma fetch_unreachable P :
  Feed.fetch_and_process_csv P Feed.Unreachable = (Ret [], [Feed.ErrorGet]).
Proof. reflexivity. Qed.

Lemma fetch_csv_error P (todo : list (list string)) (rows : list pydict)
    (out : list Feed.diagnostic) :
  Feed.process_rows P 1 todo [] = (Ret rows, out) ->
  Feed.fetch_and_process_csv P (Feed.Body todo true)
  = (Ret [], (out ++ [Feed.ErrorCsv])%list).
Proof. unfold Feed.fetch_and_process_csv. intros ->. reflexivity. Qed.

(** A short row is skipped and the loop goes on. *)
Lemma process_rows_short_row P (n : nat) (row : list string)
    (todo : list (list string)) (rows : list pydict) :
  (length row < length Feed.fields)%nat ->
  Feed.process_rows P n (row :: todo) rows
  = (fst (Feed.process_rows P (S n) todo rows),
     Feed.SkippingRow n :: snd (Feed.process_rows P (S n) todo rows)).
Proof.
  intros Hlen. cbn [Feed.process_rows]. unfold Feed.process_row.
  apply Nat.ltb_lt in Hlen. rewrite Hlen.
  destruct (Feed.process_rows P (S n) todo rows). reflexivity.
Qed.

(** A row whose base fields raise [ValueError] is skipped and the loop
    goes on. *)
Lemma process_rows_bad_base_field P (n : nat) (row : list string)
    (todo : list (list string)) (rows : list pydict) (base_data : pydict)
    (what : string) :
  (length Feed.fields <= length row)%nat ->
  Feed.base_comprehension row (seq 0 (length Feed.base_fields)) ∅ = Ret base_data ->
  Feed.convert_fields P base_data = Raise (ValueError what) ->
  Feed.process_rows P n (row :: todo) rows
  = (fst (Feed.process_rows P (S n) todo rows),
     Feed.ErrorConverting n (ValueError what)
       :: snd (Feed.process_rows P (S n) todo rows)).
Proof.
  intros Hlen Hbase Hconv. cbn [Feed.process_rows]. unfold Feed.process_row.
  apply Nat.ltb_ge in Hlen. rewrite Hlen, Hbase, Hconv. cbn [is_ValueError].
  destruct (Feed.process_rows P (S n) todo rows). reflexivity.
Qed.

(** ** get_doa *)

(** C1, as the code has it.  When the fetch yields no record -- the
    server cannot be reached, the body is empty, every row is skipped --
    [doa_info] is the empty list, not [None]: the test
    [doa_info is not None] holds, [doa_info[0]] raises [IndexError], and
    the outer handler answers with the error envelope of errcode 5, which
    has no [doa_info] field. *)
Theorem get_doa_without_records_is_error P allowedIPs doa_feed s q st :
  api_query allowedIPs s = Some q ->
  path s = "/api/krakensdr/get_doa" ->
  fst (Feed.fetch_and_process_csv P doa_feed) = Ret [] ->
  exists resp,
    do_GET P allowedIPs doa_feed s st = (Ret resp, st) /\
    errcode resp = Some 5 /\
    field resp "doa_info" = None.
Proof.
  intros Hq Hpath Hfetch.
  rewrite (do_GET_dispatch _ _ _ _ _ Hq), Hpath, dispatch_get_doa.
  unfold api_get_doa. rewrite Hfetch. run_eff. cbn.
  eexists. split; [reflexivity|]. split.
  - apply errcode_return_error_json.
  - unfold field, return_error_json, return_json_dict.
    rewrite !lookup_insert_ne by discriminate. apply lookup_empty.
Qed.

Lemma get_doa_without_records_is_error_witness :
  exists resp,
    do_GET RefHost.linux_utc [] Feed.Unreachable
      (RefHost.get "/api/krakensdr/get_doa" []) RefHost.store0
    = (Ret resp, RefHost.store0) /\
    errcode resp = Some 5 /\
    field resp "doa_info" = None.
Proof.
  apply (get_doa_without_records_is_error RefHost.linux_utc [] Feed.Unreachable
           _ ∅ RefHost.store0); reflexivity.
Defined.

(** An empty body does the same as an unreachable server. *)
Example get_doa_empty_body :
  errcode (match fst (do_GET RefHost.linux_utc [] (Feed.Body [] false)
                        (RefHost.get "/api/krakensdr/get_doa" []) RefHost.store0) with
           | Ret resp => resp
           | Raise _ => NoResponse
           end)
  = Some 5.
Proof. vm_compute. reflexivity. Qed.

(** With at least one record the answer is errcode 0 and [doa_info] is
    the first record. *)
Lemma get_doa_first_record P allowedIPs doa_feed s q st
    (first : pydict) (others : list pydict) :
  api_query allowedIPs s = Some q ->
  path s = "/api/krakensdr/get_doa" ->
  fst (Feed.fetch_and_process_csv P doa_feed) = Ret (first :: others) ->
  exists resp,
    do_GET P allowedIPs doa_feed s st = (Ret resp, st) /\
    errcode resp = Some 0 /\
    field resp "doa_info" = Some (PyDict first).
Proof.
  intros Hq Hpath Hfetch.
  rewrite (do_GET_dispatch _ _ _ _ _ Hq), Hpath, dispatch_get_doa.
  unfold api_get_doa. rewrite Hfetch. run_eff. cbn.
  eexists. split; [reflexivity|]. split.
  - unfold errcode, return_json_dict, build_base_dict.
    rewrite !lookup_insert_ne by discriminate. rewrite lookup_insert_eq. reflexivity.
  - unfold field, return_json_dict. apply lookup_insert_eq.
Qed.

(** An exception that leaves the fetch is answered with errcode 1. *)
Lemma get_doa_fetch_raises P allowedIPs doa_feed s q st (e : pyexc) :
  api_query allowedIPs s = Some q ->
  path s = "/api/krakensdr/get_doa" ->
  fst (Feed.fetch_and_process_csv P doa_feed) = Raise e ->
  exists resp,
    do_GET P allowedIPs doa_feed s st = (Ret resp, st) /\ errcode resp = Some 1.
Proof.
  intros Hq Hpath Hfetch.
  rewrite (do_GET_dispatch _ _ _ _ _ Hq), Hpath, dispatch_get_doa.
  unfold api_get_doa. rewrite Hfetch. run_eff. cbn.
  eexists. split; [reflexivity|]. apply errcode_return_error_json.
Qed.

(** ** The allow-list at start-up *)

(** A request from an address that is not on a non-empty allow-list is
    answered 403 and goes no further. *)
Lemma do_GET_forbidden P allowedIPs doa_feed s st (client : string)
    (rest : list string) :
  client_address s = client :: rest ->
  allowedIPs <> [] ->
  not_in client allowedIPs = true ->
  do_GET P allowedIPs doa_feed s st = (Ret (Html 403 forbidden_page), st).
Proof.
  intros Hc Hne Hnot. unfold do_GET. rewrite Hc, Hnot.
  destruct allowedIPs; [contradiction|]. reflexivity.
Qed.

(** With an empty allow-list every address is let through: a request
    with a URL that parses, other than the root, reaches the dispatch. *)
Lemma empty_allow_list_lets_in (s : request) (client : string)
    (rest : list string) (req : parsed_url) :
  client_address s = client :: rest ->
  urlparse s = Ret req ->
  strip_leading (url_path req) <> "" ->
  api_query [] s = Some (url_query req).
Proof.
  intros Hc Hu Hp. unfold api_query. rewrite Hc, Hu. cbn [length Nat.ltb Nat.leb andb].
  destruct (strip_leading (url_path req)); [contradiction|]. reflexivity.
Qed.

(** A list of several entries with a malformed one ends the process with
    code 3. *)
Example malformed_entry_in_list_exits :
  buildAllowedIPs "10.0.0.5,abc" = BuildExit 3.
Proof. reflexivity. Qed.

(** C9, as the code has it.  For an [--allowedips] value of one entry
    (no comma) in which the dotted-quad pattern finds nothing,
    [buildAllowedIPs] returns [False] with the allow-list empty; the
    main program does not look at the returned value, so start-up goes
    on and the agent serves with the empty list, which lets every
    address in.  No exit code 3 and no other failure is produced. *)
Theorem single_malformed_allowedip_is_served (h : host) (args : arguments) :
  path_exists h (settings_path args) = true ->
  path_exists h (settings_path args +:+ "/settings.json") = true ->
  port_free h (port args) = true ->
  (0 < String.length (allowedips args))%nat ->
  Text.contains_char "," (Text.chars (allowedips args)) = false ->
  search (Text.remove_char " " (Text.chars (allowedips args))) = None ->
  buildAllowedIPs (allowedips args) = BuildReturn false [] /\
  main h args = Serving (port args) [].
Proof.
  intros Hdir Hfile Hport Hlen Hcomma Hsearch.
  assert (Hb : buildAllowedIPs (allowedips args) = BuildReturn false []).
  { unfold buildAllowedIPs. apply Nat.ltb_lt in Hlen.
    rewrite Hlen, Hcomma, Hsearch. reflexivity. }
  split; [exact Hb|].
  unfold main. rewrite Hdir, Hfile, Hb. cbn [negb].
  unfold run. unfold port_free in Hport.
  destruct (server_bind h (port args)); [reflexivity|discriminate].
Qed.

Lemma single_malformed_allowedip_is_served_witness :
  buildAllowedIPs (allowedips (RefHost.arguments_with "10.0.0")) = BuildReturn false [] /\
  main RefHost.ready (RefHost.arguments_with "10.0.0")
  = Serving (port (RefHost.arguments_with "10.0.0")) [].
Proof.
  apply (single_malformed_allowedip_is_served RefHost.ready
           (RefHost.arguments_with "10.0.0"));
    first [reflexivity | cbn; lia].
Defined.

(** ** The staged copy of the bridge *)

Lemma scalar_encodable (v : pyval) : scalar v = true -> Control.encodable v = true.
Proof. unfold scalar. destruct v; intros H; first [exact H | discriminate H]. Qed.

(** Staging merges the key into the working copy and writes nothing. *)
Lemma update_value_staging (key : string) (v : pyval) (st : Control.store)
    (base : pydict) :
  working_copy st = Some base ->
  Control.update_value key v false st
  = (Ret tt, Control.set_staged (Some (<[key := v]> base)) st).
Proof.
  unfold working_copy, Control.update_value, Control.get_config. run_eff.
  destruct st as [dk w sg ws]. cbn.
  destruct sg as [s0|]; cbn.
  - intros [= ->]. reflexivity.
  - destruct dk; intros [= ->]. reflexivity.
Qed.

(** Committing a value that [json.dump] writes: the working copy goes to
    the file with the key merged in, once, and the staged copy is
    cleared. *)
Lemma update_value_commit (key : string) (v : pyval) (st : Control.store)
    (base : pydict) :
  working_copy st = Some base ->
  Control.disk_writable st = true ->
  Control.encodable v = true ->
  Control.update_value key v true st
  = (Ret tt,
     {| Control.disk := Control.Document (<[key := v]> base);
        Control.disk_writable := true;
        Control.staged := None;
        Control.writes := <[key := v]> base :: Control.writes st |}).
Proof.
  unfold working_copy, Control.update_value, Control.get_config,
    Control.save_config. run_eff.
  destruct st as [dk w sg ws]. cbn [Control.staged Control.disk Control.disk_writable
                                     Control.writes forallb].
  intros Hb -> ->.
  destruct sg as [s0|]; cbn.
  - injection Hb as ->. reflexivity.
  - destruct dk; try discriminate. injection Hb as ->. reflexivity.
Qed.

(** ** set_frequency *)

Lemma lookup_has_key (d : pydict) (key : string) (v : pyval) :
  d !! key = Some v -> has_key d key = true.
Proof. unfold has_key. intros ->. reflexivity. Qed.

Lemma lookup_has_no_key (d : pydict) (key : string) :
  d !! key = None -> has_key d key = false.
Proof. unfold has_key. intros ->. reflexivity. Qed.

Lemma bind_lift_ret {S A B} (a : A) (k : A -> M S B) :
  bind (lift (Ret a)) k = k a.
Proof. reflexivity. Qed.

Lemma bind_ret {S A B} (a : A) (k : A -> M S B) : bind (ret a) k = k a.
Proof. reflexivity. Qed.

(** One step of a handler body past a pure computation that returned. *)
Ltac step := rewrite ?bind_lift_ret, ?bind_ret; cbn beta.

(** C6.  A [set_frequency] request with a frequency in 24.0 .. 1766.0 and
    a gain of the table, on a bridge with nothing staged and a settings
    file that can be read and written, is answered with the plain
    success envelope after exactly one write: the log of writes grows by
    one document, which is the document read with [center_freq] set to
    the frequency and [uniform_gain] set to the gain, and nothing stays
    staged. *)
Theorem set_frequency_with_gain_writes_once P allowedIPs doa_feed s q st
    (doc : pydict) (vf vg : pyval) (f g : spec_float) :
  api_query allowedIPs s = Some q ->
  Text.startswith (path s) "/api/krakensdr/set_frequency" = true ->
  param_data_to_dict q !! "freq" = Some vf ->
  Builtins.py_float vf = Ret f ->
  F64.leb f_24 f = true ->
  F64.leb f f_1766 = true ->
  param_data_to_dict q !! "gain" = Some vg ->
  Builtins.py_float vg = Ret g ->
  Control.gain_in_table g = true ->
  Control.staged st = None ->
  Control.disk st = Control.Document doc ->
  Control.disk_writable st = true ->
  exists st',
    do_GET P allowedIPs doa_feed s st
    = (Ret (return_json_dict build_base_dict), st') /\
    Control.writes st'
    = <["uniform_gain" := PyFloat g]> (<["center_freq" := PyFloat f]> doc)
        :: Control.writes st /\
    Control.disk st'
    = Control.Document
        (<["uniform_gain" := PyFloat g]> (<["center_freq" := PyFloat f]> doc)) /\
    Control.staged st' = None.
Proof.
  intros Hq Hpath Hvf Hf Hlo Hhi Hvg Hg Htab Hst Hdisk Hw.
  rewrite (do_GET_dispatch _ _ _ _ _ Hq), (dispatch_set_frequency _ _ _ _ Hpath).
  unfold api_set_frequency.
  rewrite (lookup_has_key _ _ _ Hvf), (lookup_has_key _ _ _ Hvg). cbn [negb].
  rewrite (subscript_lookup _ _ _ Hvf). step. rewrite Hf. step.
  rewrite (in_range_passes _ Hlo Hhi).
  rewrite (subscript_lookup _ _ _ Hvg). step. rewrite Hg. step.
  unfold Control.set_frequency, Control.set_gain. rewrite Htab. cbn [negb].
  assert (Hwc : working_copy st = Some doc).
  { unfold working_copy. rewrite Hst, Hdisk. reflexivity. }
  unfold try_except, bind.
  rewrite (update_value_staging _ _ _ _ Hwc). cbv beta iota.
  rewrite (update_value_commit "uniform_gain" (PyFloat g)
             (Control.set_staged (Some (<["center_freq" := PyFloat f]> doc)) st)
             (<["center_freq" := PyFloat f]> doc) eq_refl Hw eq_refl).
  cbv beta iota. unfold ret.
  eexists. split; [reflexivity|]. cbn. auto.
Qed.

Lemma set_frequency_with_gain_writes_once_witness :
  exists st',
    do_GET RefHost.linux_utc [] Feed.Unreachable
      (RefHost.get "/api/krakensdr/set_frequency?freq=100&gain=20.7"
         [("freq", ["100"]); ("gain", ["20.7"])])
      RefHost.store0
    = (Ret (return_json_dict build_base_dict), st') /\
    Control.writes st'
    = <["uniform_gain" := PyFloat (F64.of_decimal false 207 (-1))]>
        (<["center_freq" := PyFloat (F64.of_decimal false 100 0)]> RefHost.settings0)
        :: Control.writes RefHost.store0 /\
    Control.disk st'
    = Control.Document
        (<["uniform_gain" := PyFloat (F64.of_decimal false 207 (-1))]>
           (<["center_freq" := PyFloat (F64.of_decimal false 100 0)]>
              RefHost.settings0)) /\
    Control.staged st' = None.
Proof.
  apply (set_frequency_with_gain_writes_once RefHost.linux_utc [] Feed.Unreachable
           _ (list_to_map [("freq", ["100"]); ("gain", ["20.7"])]) RefHost.store0
           RefHost.settings0 (PyStr "100") (PyStr "20.7"));
    vm_compute; reflexivity.
Defined.

(** A frequency that fails the range test is answered with errcode 1 and
    nothing changes. *)
Lemma set_frequency_out_of_range P allowedIPs doa_feed s q st
    (vf : pyval) (f : spec_float) :
  api_query allowedIPs s = Some q ->
  Text.startswith (path s) "/api/krakensdr/set_frequency" = true ->
  param_data_to_dict q !! "freq" = Some vf ->
  Builtins.py_float vf = Ret f ->
  F64.ltb f f_24 || F64.gtb f f_1766 = true ->
  exists resp,
    do_GET P allowedIPs doa_feed s st = (Ret resp, st) /\ errcode resp = Some 1.
Proof.
  intros Hq Hpath Hvf Hf Hout.
  rewrite (do_GET_dispatch _ _ _ _ _ Hq), (dispatch_set_frequency _ _ _ _ Hpath).
  unfold api_set_frequency. rewrite (lookup_has_key _ _ _ Hvf). cbn [negb].
  rewrite (subscript_lookup _ _ _ Hvf). step. rewrite Hf. step. rewrite Hout.
  run_eff. eexists. split; [reflexivity|]. apply errcode_return_error_json.
Qed.

(** A frequency that passes the range test, without a gain, is committed
    at once: one write of the working copy with [center_freq] set. *)
Lemma set_frequency_passed P allowedIPs doa_feed s q st
    (base : pydict) (vf : pyval) (f : spec_float) :
  api_query allowedIPs s = Some q ->
  Text.startswith (path s) "/api/krakensdr/set_frequency" = true ->
  param_data_to_dict q !! "freq" = Some vf ->
  Builtins.py_float vf = Ret f ->
  F64.ltb f f_24 || F64.gtb f f_1766 = false ->
  param_data_to_dict q !! "gain" = None ->
  working_copy st = Some base ->
  Control.disk_writable st = true ->
  exists st',
    do_GET P allowedIPs doa_feed s st
    = (Ret (return_json_dict build_base_dict), st') /\
    Control.writes st' = <["center_freq" := PyFloat f]> base :: Control.writes st /\
    Control.disk st' = Control.Document (<["center_freq" := PyFloat f]> base).
Proof.
  intros Hq Hpath Hvf Hf Hin Hng Hwc Hw.
  rewrite (do_GET_dispatch _ _ _ _ _ Hq), (dispatch_set_frequency _ _ _ _ Hpath).
  unfold api_set_frequency.
  rewrite (lookup_has_key _ _ _ Hvf), (lookup_has_no_key _ _ Hng). cbn [negb].
  rewrite (subscript_lookup _ _ _ Hvf). step. rewrite Hf. step. rewrite Hin. step.
  unfold Control.set_frequency, try_except, bind.
  rewrite (update_value_commit _ _ _ _ Hwc Hw) by reflexivity. cbv beta iota. unfold ret.
  eexists. split; [reflexivity|]. cbn. auto.
Qed.

(** So for a frequency that is a number the request is accepted exactly
    when 24.0 <= f <= 1766.0. *)
Lemma set_frequency_number_accepted_iff P allowedIPs doa_feed s q st
    (base : pydict) (vf : pyval) (f : spec_float) :
  api_query allowedIPs s = Some q ->
  Text.startswith (path s) "/api/krakensdr/set_frequency" = true ->
  param_data_to_dict q !! "freq" = Some vf ->
  Builtins.py_float vf = Ret f ->
  F64.is_nan f = false ->
  param_data_to_dict q !! "gain" = None ->
  working_copy st = Some base ->
  Control.disk_writable st = true ->
  (F64.leb f_24 f = true /\ F64.leb f f_1766 = true) <->
  fst (do_GET P allowedIPs doa_feed s st) = Ret (return_json_dict build_base_dict).
Proof.
  intros Hq Hpath Hvf Hf Hnan Hng Hwc Hw. split.
  - intros Hr%(range_test_spec f Hnan).
    destruct (set_frequency_passed P allowedIPs doa_feed s q st base vf f)
      as (st' & -> & _); auto.
  - intros Hok. apply (range_test_spec f Hnan).
    destruct (F64.ltb f f_24 || F64.gtb f f_1766) eqn:Hout; [|reflexivity].
    destruct (set_frequency_out_of_range P allowedIPs doa_feed s q st vf f)
      as (resp & Hrun & Hcode); auto.
    rewrite Hrun in Hok. cbn in Hok. injection Hok as ->. discriminate Hcode.
Qed.

(** C7, as the code has it.  The range test is
    [new_freq < 24.0 or new_freq > 1766.0]; both comparisons are false
    for a NaN, which [float] reads from the text ["nan"].  Such a request
    is accepted -- success envelope, one write -- and the document on
    disk gets NaN as its [center_freq], although 24.0 <= NaN does not
    hold. *)
Theorem set_frequency_accepts_nan P allowedIPs doa_feed s q st
    (base : pydict) (vf : pyval) :
  api_query allowedIPs s = Some q ->
  Text.startswith (path s) "/api/krakensdr/set_frequency" = true ->
  param_data_to_dict q !! "freq" = Some vf ->
  Builtins.py_float vf = Ret F64.nan ->
  param_data_to_dict q !! "gain" = None ->
  working_copy st = Some base ->
  Control.disk_writable st = true ->
  F64.leb f_24 F64.nan = false /\
  exists st',
    do_GET P allowedIPs doa_feed s st
    = (Ret (return_json_dict build_base_dict), st') /\
    errcode (return_json_dict build_base_dict) = Some 0 /\
    Control.disk st' = Control.Document (<["center_freq" := PyFloat F64.nan]> base).
Proof.
  intros Hq Hpath Hvf Hf Hng Hwc Hw. split; [reflexivity|].
  destruct (set_frequency_passed P allowedIPs doa_feed s q st base vf F64.nan)
    as (st' & Hrun & _ & Hdisk); auto.
  exists st'. auto using errcode_build_base_dict.
Qed.

Lemma set_frequency_accepts_nan_witness :
  F64.leb f_24 F64.nan = false /\
  exists st',
    do_GET RefHost.linux_utc [] Feed.Unreachable
      (RefHost.get "/api/krakensdr/set_frequency?freq=nan" [("freq", ["nan"])])
      RefHost.store0
    = (Ret (return_json_dict build_base_dict), st') /\
    errcode (return_json_dict build_base_dict) = Some 0 /\
    Control.disk st'
    = Control.Document (<["center_freq" := PyFloat F64.nan]> RefHost.settings0).
Proof.
  apply (set_frequency_accepts_nan RefHost.linux_utc [] Feed.Unreachable
           _ (list_to_map [("freq", ["nan"])]) RefHost.store0
           RefHost.settings0 (PyStr "nan"));
    vm_compute; reflexivity.
Defined.

(** A gain that [float] does not read -- a text that is no numeral, a
    repeated parameter -- ends the request before anything is staged:
    errcode 3, and the bridge is as it was. *)
Lemma unreadable_gain_stages_nothing P allowedIPs doa_feed s q st
    (vf vg : pyval) (f : spec_float) (e : pyexc) :
  api_query allowedIPs s = Some q ->
  Text.startswith (path s) "/api/krakensdr/set_frequency" = true ->
  param_data_to_dict q !! "freq" = Some vf ->
  Builtins.py_float vf = Ret f ->
  F64.leb f_24 f = true ->
  F64.leb f f_1766 = true ->
  param_data_to_dict q !! "gain" = Some vg ->
  Builtins.py_float vg = Raise e ->
  exists resp,
    do_GET P allowedIPs doa_feed s st = (Ret resp, st) /\ errcode resp = Some 3.
Proof.
  intros Hq Hpath Hvf Hf Hlo Hhi Hvg Hg.
  rewrite (do_GET_dispatch _ _ _ _ _ Hq), (dispatch_set_frequency _ _ _ _ Hpath).
  unfold api_set_frequency.
  rewrite (lookup_has_key _ _ _ Hvf), (lookup_has_key _ _ _ Hvg). cbn [negb].
  rewrite (subscript_lookup _ _ _ Hvf). step. rewrite Hf. step.
  rewrite (in_range_passes _ Hlo Hhi).
  rewrite (subscript_lookup _ _ _ Hvg). step. rewrite Hg.
  run_eff. eexists. split; [reflexivity|]. apply errcode_return_error_json.
Qed.




(** The same through the API: after the failed request, a [set_gain]
    request that succeeds writes the frequency 100 of the failed one. *)
Example leftover_frequency_is_written_by_set_gain :
  let failed :=
    do_GET RefHost.linux_utc [] Feed.Unreachable
      (RefHost.get "/api/krakensdr/set_frequency?freq=100&gain=20"
         [("freq", ["100"]); ("gain", ["20"])])
      RefHost.store0 in
  let next :=
    do_GET RefHost.linux_utc [] Feed.Unreachable
      (RefHost.get "/api/krakensdr/set_gain?gain=20.7" [("gain", ["20.7"])])
      (snd failed) in
  (match fst failed with Ret resp => errcode resp | Raise _ => None end,
   Control.writes (snd failed),
   match fst next with Ret resp => errcode resp | Raise _ => None end,
   match Control.disk (snd next) with
   | Control.Document d => d !! "center_freq"
   | _ => None
   end)
  = (Some 3, [], Some 0, Some (PyFloat (F64.of_decimal false 100 0))).
Proof. vm_compute. reflexivity. Qed.

(** ** The handler always answers *)

(** No exception leaves [do_GET]: whatever a branch raises is turned into
    an envelope by the handler of its own [try] or by the outer one. *)
Lemma do_GET_never_raises P allowedIPs doa_feed s st :
  exists resp, fst (do_GET P allowedIPs doa_feed s st) = Ret resp.
Proof.
  unfold do_GET.
  destruct (client_address s) as [|client rest]; [eexists; reflexivity|].
  destruct ((0 <? length allowedIPs)%nat && not_in client allowedIPs);
    [eexists; reflexivity|].
  destruct (urlparse s) as [req|e]; [|eexists; reflexivity].
  destruct (String.length (strip_leading (url_path req)) =? 0)%nat;
    [eexists; reflexivity|].
  unfold dispatch, try_except.
  match goal with
  | |- context [let (_, _) := ?body st in _] => destruct (body st) as [[resp|e] st']
  end; eexists; reflexivity.
Qed.

(** * Further properties of the bridge *)







(** X3.  With nothing staged and a settings file that is missing or is
    not JSON, every update raises, staged or committed, and the bridge is
    left exactly as it was. *)
Theorem update_value_without_document (key : string) (v : pyval)
    (save_file : bool) (st : Control.store) :
  working_copy st = None ->
  exists e, Control.update_value key v save_file st = (Raise e, st).
Proof.
  unfold working_copy, Control.update_value, Control.get_config. run_eff.
  destruct st as [dk w sg ws]. cbn.
  destruct sg; [discriminate|]. destruct dk; [eauto|eauto|discriminate].
Qed.

Lemma update_value_without_document_witness :
  exists e,
    Control.update_value "center_freq" (PyInt 100) true
      {| Control.disk := Control.Missing; Control.disk_writable := true;
         Control.staged := None; Control.writes := [] |}
    = (Raise e,
       {| Control.disk := Control.Missing; Control.disk_writable := true;
          Control.staged := None; Control.writes := [] |}).
Proof.
  apply (update_value_without_document "center_freq" (PyInt 100) true).
  reflexivity.
Defined.

(** X4.  A commit onto a file that cannot be written raises and writes
    nothing, but is not without effect when a staged copy exists: the key
    stays merged in that copy, which a later commit will write. *)
Theorem failed_write_keeps_key_staged (key : string) (v : pyval)
    (st : Control.store) (s : pydict) :
  Control.staged st = Some s ->
  Control.disk_writable st = false ->
  exists e st',
    Control.update_value key v true st = (Raise e, st') /\
    Control.disk st' = Control.disk st /\
    Control.writes st' = Control.writes st /\
    Control.staged st' = Some (<[key := v]> s).
Proof.
  unfold Control.update_value, Control.get_config, Control.save_config. run_eff.
  destruct st as [dk w sg ws]. cbn. intros -> ->. cbn.
  eexists. eexists. split; [reflexivity|]. cbn. auto.
Qed.

Lemma failed_write_keeps_key_staged_witness :
  exists e st',
    Control.update_value "uniform_gain" (PyInt 0) true
      {| Control.disk := Control.Document RefHost.settings0;
         Control.disk_writable := false;
         Control.staged := Some RefHost.settings0; Control.writes := [] |}
    = (Raise e, st') /\
    Control.disk st' = Control.Document RefHost.settings0 /\
    Control.writes st' = [] /\
    Control.staged st' = Some (<["uniform_gain" := PyInt 0]> RefHost.settings0).
Proof.
  apply (failed_write_keeps_key_staged "uniform_gain" (PyInt 0)
           {| Control.disk := Control.Document RefHost.settings0;
              Control.disk_writable := false;
              Control.staged := Some RefHost.settings0; Control.writes := [] |}
           RefHost.settings0); reflexivity.
Defined.

(** *** set_coordinates *)

Lemma copy_if_present_frame (coordinates : pydict) (key k : string)
    (conv : pyval -> outcome pyval) (d d' : pydict) :
  Control.copy_if_present coordinates key conv d = Ret d' ->
  k <> key -> d' !! k = d !! k.
Proof.
  unfold Control.copy_if_present. intros H Hne.
  destruct (coordinates !! key) as [v|]; [|congruence].
  destruct (conv v) as [v'|]; [|discriminate].
  injection H as <-. apply lookup_insert_ne. congruence.
Qed.

(** A completed run of the assignments: latitude and longitude were
    there and read as floats, and the result is the document with both
    set, up to the five optional keys. *)
Lemma apply_coordinates_inv (coordinates doc d' : pydict) :
  Control.apply_coordinates coordinates doc = Ret d' ->
  exists vlat vlon lat lon,
    coordinates !! "latitude" = Some vlat /\ Builtins.py_float vlat = Ret lat /\
    coordinates !! "longitude" = Some vlon /\ Builtins.py_float vlon = Ret lon /\
    forall k,
      k ∉ ["heading"; "location_source"; "gps_fixed_heading"; "gps_min_speed";
           "gps_min_speed_duration"] ->
      d' !! k = <["longitude" := PyFloat lon]> (<["latitude" := PyFloat lat]> doc) !! k.
Proof.
  unfold Control.apply_coordinates, Control.subscript, Control.as_float. intros H.
  destruct (coordinates !! "latitude") as [vlat|]; [|discriminate].
  cbn [Control.obind] in H.
  destruct (Builtins.py_float vlat) as [lat|] eqn:Hlat; [|discriminate].
  cbn [Control.obind] in H.
  destruct (coordinates !! "longitude") as [vlon|]; [|discriminate].
  cbn [Control.obind] in H.
  destruct (Builtins.py_float vlon) as [lon|] eqn:Hlon; [|discriminate].
  cbn [Control.obind] in H.
  exists vlat, vlon, lat, lon. repeat (split; [reflexivity || assumption|]).
  destruct (Control.copy_if_present coordinates "heading" _ _) as [d1|] eqn:E1;
    [|discriminate]. cbn [Control.obind] in H.
  destruct (Control.copy_if_present coordinates "location_source" _ _) as [d2|] eqn:E2;
    [|discriminate]. cbn [Control.obind] in H.
  destruct (Control.copy_if_present coordinates "gps_fixed_heading" _ _) as [d3|] eqn:E3;
    [|discriminate]. cbn [Control.obind] in H.
  destruct (Control.copy_if_present coordinates "gps_min_speed" _ _) as [d4|] eqn:E4;
    [|discriminate]. cbn [Control.obind] in H.
  intros k Hk. repeat rewrite not_elem_of_cons in Hk.
  destruct Hk as (H1 & H2 & H3 & H4 & H5 & _).
  rewrite (copy_if_present_frame _ _ k _ _ _ H H5).
  rewrite (copy_if_present_frame _ _ k _ _ _ E4 H4).
  rewrite (copy_if_present_frame _ _ k _ _ _ E3 H3).
  rewrite (copy_if_present_frame _ _ k _ _ _ E2 H2).
  apply (copy_if_present_frame _ _ k _ _ _ E1 H1).
Qed.

(** What [set_coordinates] does to the bridge when it returns: one write
    of a document made by the assignments, the staged copy not touched. *)
Lemma set_coordinates_returns (coordinates : pydict) (st st' : Control.store) :
  Control.set_coordinates coordinates st = (Ret tt, st') ->
  exists doc d',
    Control.disk st = Control.Document doc /\
    Control.disk_writable st = true /\
    Control.apply_coordinates coordinates doc = Ret d' /\
    st' = Control.set_disk d' st.
Proof.
  unfold Control.set_coordinates, Control.get_config, Control.save_config. run_eff.
  destruct st as [dk w sg ws].
  cbn [Control.disk Control.disk_writable Control.staged Control.writes].
  destruct dk as [| |doc]; try discriminate.
  destruct (Control.apply_coordinates coordinates doc) as [d'|] eqn:Happ;
    [|discriminate].
  destruct w; [|discriminate].
  destruct (forallb Control.encodable (Control.assigned_coordinates coordinates d'));
    [|discriminate].
  intros [= <-].
  exists doc, d'. repeat split. exact Happ.
Qed.

(** X5.  When [set_coordinates] returns it has written the file once,
    without touching the staged copy; the document written has latitude
    and longitude as the floats read from the request, and every key
    outside the seven the method knows is as it was in the document read:
    unknown keys of the request are passed over. *)
Theorem set_coordinates_writes_known_keys_only (coordinates : pydict)
    (st st' : Control.store) (k : string) :
  Control.set_coordinates coordinates st = (Ret tt, st') ->
  k ∉ coordinate_keys ->
  exists doc d' vlat vlon lat lon,
    Control.disk st = Control.Document doc /\
    Control.disk st' = Control.Document d' /\
    Control.writes st' = d' :: Control.writes st /\
    Control.staged st' = Control.staged st /\
    coordinates !! "latitude" = Some vlat /\ Builtins.py_float vlat = Ret lat /\
    coordinates !! "longitude" = Some vlon /\ Builtins.py_float vlon = Ret lon /\
    d' !! "latitude" = Some (PyFloat lat) /\
    d' !! "longitude" = Some (PyFloat lon) /\
    d' !! k = doc !! k.
Proof.
  intros (doc & d' & Hdisk & Hw & Happ & ->)%set_coordinates_returns Hk.
  destruct (apply_coordinates_inv _ _ _ Happ)
    as (vlat & vlon & lat & lon & Hvlat & Hlat & Hvlon & Hlon & Hframe).
  exists doc, d', vlat, vlon, lat, lon.
  repeat (split; [assumption || reflexivity|]).
  unfold coordinate_keys in Hk. repeat rewrite not_elem_of_cons in Hk.
  destruct Hk as (H1 & H2 & H3 & H4 & H5 & H6 & H7 & _).
  split; [|split].
  - rewrite Hframe by (repeat rewrite not_elem_of_cons; repeat split;
                       (discriminate || apply not_elem_of_nil)).
    rewrite lookup_insert_ne by discriminate. apply lookup_insert_eq.
  - rewrite Hframe by (repeat rewrite not_elem_of_cons; repeat split;
                       (discriminate || apply not_elem_of_nil)).
    apply lookup_insert_eq.
  - rewrite Hframe by (repeat rewrite not_elem_of_cons; repeat split;
                       (assumption || apply not_elem_of_nil)).
    rewrite !lookup_insert_ne by congruence. reflexivity.
Qed.

Lemma set_coordinates_writes_known_keys_only_witness :
  exists doc d' vlat vlon lat lon,
    Control.disk RefHost.store0 = Control.Document doc /\
    Control.disk
      (snd (Control.set_coordinates
              (list_to_map [("latitude", PyStr "47.5"); ("longitude", PyStr "19.04");
                            ("center_freq", PyStr "1")])
              RefHost.store0))
    = Control.Document d' /\
    Control.writes
      (snd (Control.set_coordinates
              (list_to_map [("latitude", PyStr "47.5"); ("longitude", PyStr "19.04");
                            ("center_freq", PyStr "1")])
              RefHost.store0))
    = d' :: Control.writes RefHost.store0 /\
    Control.staged
      (snd (Control.set_coordinates
              (list_to_map [("latitude", PyStr "47.5"); ("longitude", PyStr "19.04");
                            ("center_freq", PyStr "1")])
              RefHost.store0))
    = Control.staged RefHost.store0 /\
    (list_to_map [("latitude", PyStr "47.5"); ("longitude", PyStr "19.04");
                  ("center_freq", PyStr "1")] : pydict) !! "latitude" = Some vlat /\
    Builtins.py_float vlat = Ret lat /\
    (list_to_map [("latitude", PyStr "47.5"); ("longitude", PyStr "19.04");
                  ("center_freq", PyStr "1")] : pydict) !! "longitude" = Some vlon /\
    Builtins.py_float vlon = Ret lon /\
    d' !! "latitude" = Some (PyFloat lat) /\
    d' !! "longitude" = Some (PyFloat lon) /\
    d' !! "center_freq" = doc !! "center_freq".
Proof.
  apply (set_coordinates_writes_known_keys_only
           (list_to_map [("latitude", PyStr "47.5"); ("longitude", PyStr "19.04");
                         ("center_freq", PyStr "1")])
           RefHost.store0 _ "center_freq").
  - vm_compute. reflexivity.
  - unfold coordinate_keys. repeat rewrite not_elem_of_cons.
    repeat split; (discriminate || apply not_elem_of_nil).
Defined.

(** X6.  [set_coordinates] is all or nothing but for one case.  When it
    raises because the file cannot be read, latitude or longitude is
    missing, a value does not convert, or the file cannot be opened for
    writing, the bridge and the file are exactly as before.  When it
    raises because [json.dump] refuses one of the values it has assigned
    -- all conversions done, the file opened, and a value among them
    that is not a number, text or boolean that [json.dump] writes -- the
    file is left as no document; the staged copy and the log of writes
    are as before in every case. *)
Theorem set_coordinates_failure (coordinates : pydict)
    (st st' : Control.store) (e : pyexc) :
  Control.set_coordinates coordinates st = (Raise e, st') ->
  st' = st \/
  (st' = Control.spoil st /\
   Control.disk_writable st = true /\
   exists doc settings,
     Control.disk st = Control.Document doc /\
     Control.apply_coordinates coordinates doc = Ret settings /\
     forallb scalar (Control.assigned_coordinates coordinates settings) = false).
Proof.
  unfold Control.set_coordinates, Control.get_config, Control.save_config. run_eff.
  destruct st as [dk w sg ws].
  cbn [Control.disk Control.disk_writable Control.staged Control.writes].
  destruct dk as [| |doc]; try (intros [= _ <-]; left; reflexivity).
  destruct (Control.apply_coordinates coordinates doc) as [d'|] eqn:Happ;
    [|intros [= _ <-]; left; reflexivity].
  destruct w; [|intros [= _ <-]; left; reflexivity].
  destruct (forallb Control.encodable (Control.assigned_coordinates coordinates d'))
    eqn:Henc; [discriminate|].
  intros [= _ <-]. right. split; [reflexivity|]. split; [reflexivity|].
  exists doc, d'. split; [reflexivity|]. split; [exact Happ|].
  destruct (forallb scalar (Control.assigned_coordinates coordinates d')) eqn:Hs;
    [|reflexivity].
  rewrite <- Henc. symmetry. apply forallb_forall. intros v Hv.
  apply scalar_encodable. rewrite forallb_forall in Hs. exact (Hs v Hv).
Qed.

Lemma set_coordinates_failure_witness :
  snd (Control.set_coordinates
         (list_to_map [("latitude", PyStr "47.5"); ("longitude", PyStr "east")])
         RefHost.store0)
  = RefHost.store0 \/
  (snd (Control.set_coordinates
          (list_to_map [("latitude", PyStr "47.5"); ("longitude", PyStr "east")])
          RefHost.store0)
   = Control.spoil RefHost.store0 /\
   Control.disk_writable RefHost.store0 = true /\
   exists doc settings,
     Control.disk RefHost.store0 = Control.Document doc /\
     Control.apply_coordinates
       (list_to_map [("latitude", PyStr "47.5"); ("longitude", PyStr "east")]) doc
     = Ret settings /\
     forallb scalar
       (Control.assigned_coordinates
          (list_to_map [("latitude", PyStr "47.5"); ("longitude", PyStr "east")])
          settings)
     = false).
Proof.
  apply (set_coordinates_failure
           (list_to_map [("latitude", PyStr "47.5"); ("longitude", PyStr "east")])
           RefHost.store0 _ (ValueError "east")).
  vm_compute. reflexivity.
Defined.



(** *** Keys of the per-VFO settings *)


(** *** Integers and the limit on their decimal form *)










(** * Further properties of the request handler *)

Lemma quiet_refl (st : Control.store) : quiet st st.
Proof. repeat split. Qed.














Lemma calm_still {A} (m : M Control.store A) : still m -> calm m.
Proof.
  intros Hm st. specialize (Hm st). destruct (m st) as [[a|e] st']; cbn in Hm;
    subst; [left|]; apply quiet_refl.
Qed.








Lemma try_setting_returns P (body : M Control.store http_response)
    (st : Control.store) :
  exists resp, fst (try_except body (error_setting P) st) = Ret resp.
Proof.
  unfold try_except, error_setting, ret.
  destruct (body st) as [[resp|e] st']; eauto.
Qed.











(** What the query reader delivers is text, booleans and lists of text:
    values that [json.dump] writes. *)
Lemma encodable_unwrap_single (values : list string) :
  Control.encodable (unwrap_single values) = true.
Proof.
  assert (Hl : forall l : list string,
             forallb Control.encodable (PyStr <$> l) = true).
  { induction l as [|v l IH]; [reflexivity|exact IH]. }
  unfold unwrap_single.
  destruct values as [|v [|w l]]; [reflexivity| |exact (Hl (v :: w :: l))].
  destruct (String.eqb (Text.upper v) "TRUE"); [reflexivity|].
  destruct (String.eqb (Text.upper v) "FALSE"); reflexivity.
Qed.









Lemma chars_app (a b : string) :
  Text.chars (a +:+ b) = (Text.chars a ++ Text.chars b)%list.
Proof.
  unfold Text.chars. induction a as [|c a IH]; [reflexivity|].
  change (c :: list_ascii_of_string (a +:+ b)
          = c :: (list_ascii_of_string a ++ list_ascii_of_string b)%list).
  rewrite IH. reflexivity.
Qed.





(** *** Routing of the remaining setters *)


Lemma dispatch_en_optimize_short_bursts P doa_feed s_path q :
  Text.startswith s_path "/api/krakensdr/en_optimize_short_bursts" = true ->
  dispatch P doa_feed s_path q =
  try_except (api_en_optimize_short_bursts P q) (error_unhandled P).
Proof. intros H. route H. reflexivity. Qed.










(** *** The setters that do get through *)

Lemma param_data_lookup (q : query) (key : string) :
  param_data_to_dict q !! key = unwrap_single <$> q !! key.
Proof. unfold param_data_to_dict. apply lookup_fmap. Qed.





(** *** Letter case *)

Lemma upper_char_check (c : ascii) : upper_char_checked c = true.
Proof.
  destruct c as [[] [] [] [] [] [] [] []]; vm_compute; reflexivity.
Qed.

(** Against a plain word of capitals, [str.upper()] tells what the
    capitals of the letters a .. z tell: the other characters of Latin-1
    that it changes give no such word. *)
Lemma upper_spells (v t : list ascii) :
  plain_word t = true ->
  flat_map Text.upper_char v = t <-> map capital v = t.
Proof.
  revert t. induction v as [|c v IH]; intros t Ht; [reflexivity|].
  cbn [flat_map map].
  pose proof (upper_char_check c) as Hc. unfold upper_char_checked in Hc.
  destruct (Text.upper_char c) as [|u [|b [|x l]]]; try discriminate.
  - (* one character *)
    cbn [app]. destruct t as [|x t].
    + split; discriminate.
    + cbn [plain_word] in Ht.
      apply andb_true_iff in Ht as [Ht Ht'].
      apply andb_true_iff in Ht as [Hx _].
      specialize (IH t Ht').
      split; intros [= Hu Hv].
      * subst u. rewrite Hx in Hc. cbn in Hc. apply Ascii.eqb_eq in Hc as <-.
        f_equal. apply IH, Hv.
      * rewrite Hu, Hx, orb_true_r in Hc. cbn in Hc.
        apply Ascii.eqb_eq in Hc as ->. f_equal. apply IH, Hv.
  - (* the sharp s *)
    apply andb_true_iff in Hc as [Hc Hn].
    apply andb_true_iff in Hc as [Ha Hb].
    apply Ascii.eqb_eq in Ha as ->. apply Ascii.eqb_eq in Hb as ->.
    cbn [app]. split.
    + intros <-. cbn in Ht. discriminate.
    + intros <-. cbn [plain_word] in Ht.
      apply andb_true_iff in Ht as [Ht _].
      apply andb_true_iff in Ht as [Hx _].
      rewrite Hx in Hn. discriminate.
Qed.

Lemma upper_spells_word (v word : string) :
  plain_word (Text.chars word) = true ->
  String.eqb (Text.upper v) word = spells v word.
Proof.
  intros Hw. unfold spells, Text.upper.
  pose proof (upper_spells (Text.chars v) (Text.chars word) Hw) as H.
  assert (Htext : forall l : list ascii,
             Text.text l = word <-> l = Text.chars word).
  { intros l. unfold Text.text, Text.chars. split.
    - intros <-. symmetry. apply list_ascii_of_string_of_list_ascii.
    - intros ->. apply string_of_list_ascii_of_string. }
  destruct (String.eqb_spec (Text.text (map capital (Text.chars v))) word) as [E|E].
  - apply String.eqb_eq, Htext, H, Htext, E.
  - apply String.eqb_neq. intros E'. apply E, Htext, H, Htext, E'.
Qed.

(** X16.  [en_optimize_short_bursts] commits its [state] parameter as the
    query reader delivers it, without looking at it further: a single
    value that spells [true] or [false] in any case of its letters
    arrives as the boolean -- for the texts of Latin-1 [upper()] makes no
    other value one of the two words -- any other single value is
    written as that text, and a repeated parameter as the list of its
    values. *)
Theorem en_optimize_short_bursts_request P allowedIPs doa_feed s q st
    (base : pydict) (values : list string) :
  api_query allowedIPs s = Some q ->
  Text.startswith (path s) "/api/krakensdr/en_optimize_short_bursts" = true ->
  q !! "state" = Some values ->
  working_copy st = Some base ->
  Control.disk_writable st = true ->
  exists st' state,
    do_GET P allowedIPs doa_feed s st
    = (Ret (return_json_dict build_base_dict), st') /\
    Control.disk st'
    = Control.Document (<["en_optimize_short_bursts" := state]> base) /\
    Control.writes st'
    = <["en_optimize_short_bursts" := state]> base :: Control.writes st /\
    state = match values with
            | [v] =>
                if spells v "TRUE" then PyBool true
                else if spells v "FALSE" then PyBool false
                else PyStr v
            | _ => PyList (PyStr <$> values)
            end.
Proof.
  intros Hq Hpath Hv Hwc Hw.
  assert (Hs : param_data_to_dict q !! "state" = Some (unwrap_single values)).
  { rewrite param_data_lookup, Hv. reflexivity. }
  rewrite (do_GET_dispatch _ _ _ _ _ Hq),
    (dispatch_en_optimize_short_bursts _ _ _ _ Hpath).
  unfold api_en_optimize_short_bursts.
  rewrite (lookup_has_key _ _ _ Hs). cbn [negb].
  rewrite (subscript_lookup _ _ _ Hs). step.
  unfold Control.optimize_short_bursts, try_except, bind.
  rewrite (update_value_commit _ _ _ _ Hwc Hw (encodable_unwrap_single values)).
  cbv beta iota. unfold ret.
  eexists. exists (unwrap_single values). split; [reflexivity|].
  split; [reflexivity|]. split; [reflexivity|].
  unfold unwrap_single. destruct values as [|v [|w l]]; try reflexivity.
  rewrite !upper_spells_word by reflexivity. reflexivity.
Qed.

Lemma en_optimize_short_bursts_request_witness :
  exists st' state,
    do_GET RefHost.linux_utc [] Feed.Unreachable
      (RefHost.get "/api/krakensdr/en_optimize_short_bursts?state=maybe"
         [("state", ["maybe"])])
      RefHost.store0
    = (Ret (return_json_dict build_base_dict), st') /\
    Control.disk st'
    = Control.Document (<["en_optimize_short_bursts" := state]> RefHost.settings0) /\
    Control.writes st'
    = <["en_optimize_short_bursts" := state]> RefHost.settings0
        :: Control.writes RefHost.store0 /\
    state = match ["maybe"] with
            | [v] =>
                if spells v "TRUE" then PyBool true
                else if spells v "FALSE" then PyBool false
                else PyStr v
            | _ => PyList (PyStr <$> ["maybe"])
            end.
Proof.
  apply (en_optimize_short_bursts_request RefHost.linux_utc [] Feed.Unreachable _
           (list_to_map [("state", ["maybe"])]) RefHost.store0 RefHost.settings0
           ["maybe"]);
    vm_compute; reflexivity.
Defined.

(** How the query reader turns the values of one key into an object. *)
Example unwrap_single_cases :
  map unwrap_single [["TrUe"]; ["false"]; ["maybe"]; ["1"; "true"]]
  = [PyBool true; PyBool false; PyStr "maybe"; PyList [PyStr "1"; PyStr "true"]].
Proof. reflexivity. Qed.

(** X17.  The branch written for [set_frequency_and_vfo] is shadowed: a
    path that begins with [/api/krakensdr/set_frequency_and_vfo] also
    begins with [/api/krakensdr/set_frequency], whose branch stands
    first.  Such a request, with a frequency in range and no gain, writes
    [center_freq] at once and nothing else: whatever [vfo_index] and
    [vfo_freq] say, no [vfo_freq_<index>] key is written. *)
Theorem set_frequency_and_vfo_sets_frequency_only P allowedIPs doa_feed s q st
    (base : pydict) (vf : pyval) (f : spec_float) (index : Z) :
  api_query allowedIPs s = Some q ->
  Text.startswith (path s) "/api/krakensdr/set_frequency_and_vfo" = true ->
  param_data_to_dict q !! "freq" = Some vf ->
  Builtins.py_float vf = Ret f ->
  F64.leb f_24 f = true ->
  F64.leb f f_1766 = true ->
  param_data_to_dict q !! "gain" = None ->
  working_copy st = Some base ->
  Control.disk_writable st = true ->
  exists st' d,
    do_GET P allowedIPs doa_feed s st
    = (Ret (return_json_dict build_base_dict), st') /\
    Control.disk st' = Control.Document d /\
    d = <["center_freq" := PyFloat f]> base /\
    d !! ("vfo_freq_" +:+ pretty index) = base !! ("vfo_freq_" +:+ pretty index).
Proof.
  intros Hq Hpath Hvf Hf Hlo Hhi Hng Hwc Hw.
  assert (Hpath' : Text.startswith (path s) "/api/krakensdr/set_frequency" = true).
  { destruct (startswith_split _ _ Hpath) as [t ->]. reflexivity. }
  destruct (set_frequency_passed P allowedIPs doa_feed s q st base vf f)
    as (st' & Hrun & _ & Hdisk); auto using in_range_passes.
  exists st'. eexists. split; [exact Hrun|]. split; [exact Hdisk|].
  split; [reflexivity|]. apply lookup_insert_ne. cbn. discriminate.
Qed.

Lemma set_frequency_and_vfo_sets_frequency_only_witness :
  exists st' d,
    do_GET RefHost.linux_utc [] Feed.Unreachable
      (RefHost.get
         "/api/krakensdr/set_frequency_and_vfo?freq=100&vfo_index=0&vfo_freq=100000000"
         [("freq", ["100"]); ("vfo_index", ["0"]); ("vfo_freq", ["100000000"])])
      RefHost.store0
    = (Ret (return_json_dict build_base_dict), st') /\
    Control.disk st' = Control.Document d /\
    d = <["center_freq" := PyFloat (F64.of_decimal false 100 0)]> RefHost.settings0 /\
    d !! ("vfo_freq_" +:+ pretty 0) = RefHost.settings0 !! ("vfo_freq_" +:+ pretty 0).
Proof.
  apply (set_frequency_and_vfo_sets_frequency_only RefHost.linux_utc []
           Feed.Unreachable _
           (list_to_map [("freq", ["100"]); ("vfo_index", ["0"]);
                         ("vfo_freq", ["100000000"])])
           RefHost.store0 RefHost.settings0 (PyStr "100")
           (F64.of_decimal false 100 0) 0);
    vm_compute; reflexivity.
Defined.




(** * Further properties of the feed parser *)

Lemma base_comprehension_app (row extra : list string) (idx : list nat)
    (acc : pydict) :
  (forall i, i ∈ idx -> (i < length row)%nat) ->
  Feed.base_comprehension (row ++ extra) idx acc
  = Feed.base_comprehension row idx acc.
Proof.
  revert acc. induction idx as [|i idx IH]; intros acc Hidx; [reflexivity|].
  cbn [Feed.base_comprehension].
  rewrite (lookup_app_l row extra i) by (apply Hidx; left).
  destruct (Feed.fields !! i); [|reflexivity].
  destruct (row !! i); [|reflexivity].
  apply IH. intros j Hj. apply Hidx. right. exact Hj.
Qed.

Lemma doa_comprehension_app (row extra : list string) (degrees : list nat)
    (acc : pydict) :
  (forall d, d ∈ degrees -> (17 + d < length row)%nat) ->
  Feed.doa_comprehension (row ++ extra) degrees acc
  = Feed.doa_comprehension row degrees acc.
Proof.
  revert acc. induction degrees as [|d degrees IH]; intros acc Hd; [reflexivity|].
  cbn [Feed.doa_comprehension]. rewrite doa_cell_index.
  rewrite (lookup_app_l row extra (17 + d)) by (apply Hd; left).
  destruct (row !! (17 + d)%nat) as [cell|]; [|reflexivity].
  destruct (Builtins.py_float (PyStr cell)); [|reflexivity].
  apply IH. intros j Hj. apply Hd. right. exact Hj.
Qed.

(** X19.  Only the first 377 columns of a row are looked at: columns
    after them change neither the record nor the diagnostics. *)
Theorem extra_columns_are_ignored P (line_number : nat)
    (row extra : list string) :
  (length Feed.fields <= length row)%nat ->
  Feed.process_row P line_number (row ++ extra)
  = Feed.process_row P line_number row.
Proof.
  intros Hlen. rewrite fields_length in Hlen. unfold Feed.process_row.
  rewrite fields_length, length_app.
  replace (length row + length extra <? 377)%nat with false
    by (symmetry; apply Nat.ltb_ge; lia).
  replace (length row <? 377)%nat with false
    by (symmetry; apply Nat.ltb_ge; lia).
  rewrite base_comprehension_app.
  - rewrite doa_comprehension_app; [reflexivity|].
    intros d [_ Hd]%elem_of_seq. lia.
  - intros i [_ Hi]%elem_of_seq. cbn in Hi. lia.
Qed.

Lemma extra_columns_are_ignored_witness :
  Feed.process_row RefHost.linux_utc 1
    (RefHost.feed_row RefHost.good_base "0.5" ++ ["more"; "columns"])
  = Feed.process_row RefHost.linux_utc 1 (RefHost.feed_row RefHost.good_base "0.5").
Proof.
  apply (extra_columns_are_ignored RefHost.linux_utc 1).
  apply Nat.leb_le. vm_compute. reflexivity.
Defined.

(** What a completed comprehension over the degrees holds: the float of
    its cell under the text of every degree, and nothing else new. *)
Lemma doa_comprehension_spec (row : list string) (degrees : list nat)
    (acc doa : pydict) :
  Feed.doa_comprehension row degrees acc = Ret doa ->
  (forall d, d ∈ degrees ->
     exists cell f,
       row !! (17 + d)%nat = Some cell /\
       Builtins.float_of_string cell = Some f /\
       doa !! pretty d = Some (PyFloat f)) /\
  (forall k, (forall d, d ∈ degrees -> k <> pretty d) -> doa !! k = acc !! k).
Proof.
  revert acc. induction degrees as [|d degrees IH]; intros acc H.
  - injection H as <-. split; [intros d Hd; inversion Hd|reflexivity].
  - cbn [Feed.doa_comprehension] in H. rewrite doa_cell_index in H.
    destruct (row !! (17 + d)%nat) as [cell|] eqn:Hcell; [|discriminate].
    unfold Builtins.py_float in H.
    destruct (Builtins.float_of_string cell) as [f|] eqn:Hf; [|discriminate].
    destruct (IH _ H) as [IH1 IH2]. split.
    + intros d' [->|Hd']%elem_of_cons; [|exact (IH1 d' Hd')].
      destruct (decide (d ∈ degrees)) as [Hin|Hnot]; [exact (IH1 d Hin)|].
      exists cell, f. split; [exact Hcell|]. split; [exact Hf|].
      rewrite IH2; [apply lookup_insert_eq|].
      intros d' Hd' Heq. apply (inj pretty) in Heq. subst d'. contradiction.
    + intros k Hk. rewrite IH2.
      * apply lookup_insert_ne. intros Heq. apply (Hk d); [left|]. symmetry. exact Heq.
      * intros d' Hd'. apply Hk. right. exact Hd'.
Qed.

(** A turn of the loop that appends a record: what it went through. *)
Lemma appended_inv P (line_number : nat) (row : list string) (record : pydict) :
  appended (Feed.process_row P line_number row) = Some record ->
  exists base_data converted doa,
    (length Feed.fields <= length row)%nat /\
    Feed.base_comprehension row (seq 0 (length Feed.base_fields)) ∅ = Ret base_data /\
    Feed.convert_fields P base_data = Ret converted /\
    Feed.doa_comprehension row (seq 0 360) ∅ = Ret doa /\
    record = <["DOA Output" := PyDict doa]> converted.
Proof.
  unfold appended, Feed.process_row.
  destruct (length row <? length Feed.fields)%nat eqn:Hlen; [discriminate|].
  apply Nat.ltb_ge in Hlen.
  destruct (Feed.base_comprehension row _ ∅) as [base_data|] eqn:Hb; [|discriminate].
  destruct (Feed.convert_fields P base_data) as [converted|e] eqn:Hc;
    [|destruct (is_ValueError e); discriminate].
  destruct (Feed.doa_comprehension row (seq 0 360) ∅) as [doa|] eqn:Hd; [|discriminate].
  cbn. intros [= <-]. exists base_data, converted, doa. auto.
Qed.

(** X20.  The [DOA Output] of a record is the angular spectrum of its
    row: under the text of each degree 0 .. 359 it holds the float read
    from column 17 + degree, and it has no other key. *)
Theorem doa_output_of_record P (line_number : nat) (row : list string)
    (record : pydict) (degree : nat) (k : string) :
  appended (Feed.process_row P line_number row) = Some record ->
  (degree < 360)%nat ->
  exists doa cell f,
    record !! "DOA Output" = Some (PyDict doa) /\
    row !! (17 + degree)%nat = Some cell /\
    Builtins.float_of_string cell = Some f /\
    doa !! pretty degree = Some (PyFloat f) /\
    (is_Some (doa !! k) -> exists d, (d < 360)%nat /\ k = pretty d).
Proof.
  intros (base_data & converted & doa & _ & _ & _ & Hd & ->)%appended_inv Hdeg.
  destruct (doa_comprehension_spec _ _ _ _ Hd) as [H1 H2].
  destruct (H1 degree) as (cell & f & Hcell & Hf & Hdoa); [apply elem_of_seq; lia|].
  exists doa, cell, f. split; [apply lookup_insert_eq|].
  repeat (split; [assumption|]).
  intros Hk.
  destruct (decide (Exists (fun d : nat => k = pretty d) (seq 0 360))) as [He|Hne].
  - apply Exists_exists in He as (d & [_ Hd']%elem_of_seq & ->). exists d. split; [lia|reflexivity].
  - exfalso. rewrite H2 in Hk.
    + rewrite lookup_empty in Hk. destruct Hk as [? Hk]. discriminate Hk.
    + intros d Hd' ->. apply Hne. apply Exists_exists. eauto.
Qed.

(** An option that is there is its own content. *)
Lemma some_content {A} (o : option A) (default : A) :
  match o with Some _ => true | None => false end = true ->
  o = Some (match o with Some a => a | None => default end).
Proof. destruct o; [reflexivity|discriminate]. Qed.

Lemma doa_output_of_record_witness :
  exists doa cell f,
    match appended (Feed.process_row RefHost.linux_utc 1
                      (RefHost.feed_row RefHost.good_base "0.5")) with
    | Some record => record
    | None => ∅
    end !! "DOA Output" = Some (PyDict doa) /\
    RefHost.feed_row RefHost.good_base "0.5" !! (17 + 359)%nat = Some cell /\
    Builtins.float_of_string cell = Some f /\
    doa !! pretty 359%nat = Some (PyFloat f) /\
    (is_Some (doa !! "360") -> exists d, (d < 360)%nat /\ "360" = pretty d).
Proof.
  apply (doa_output_of_record RefHost.linux_utc 1
           (RefHost.feed_row RefHost.good_base "0.5")).
  - apply some_content. vm_compute. reflexivity.
  - lia.
Defined.

(** The dictionary built from a row holds each of the thirteen base
    cells, as text, under the name of its field. *)
Lemma base_data_cell (row : list string) (base_data : pydict) (i : nat)
    (key cell : string) :
  Feed.base_comprehension row (seq 0 (length Feed.base_fields)) ∅ = Ret base_data ->
  Feed.base_fields !! i = Some key ->
  row !! i = Some cell ->
  base_data !! key = Some (PyStr cell).
Proof.
  cbn [length Feed.base_fields seq Feed.base_comprehension].
  rewrite !fields_base by lia.
  repeat match goal with
    | |- context [Feed.base_fields !! ?i] =>
        let r := eval cbv in (Feed.base_fields !! i) in
        replace (Feed.base_fields !! i) with r by reflexivity
    end.
  destruct (row !! 0%nat) as [c0|] eqn:R0; [|discriminate].
  destruct (row !! 1%nat) as [c1|] eqn:R1; [|discriminate].
  destruct (row !! 2%nat) as [c2|] eqn:R2; [|discriminate].
  destruct (row !! 3%nat) as [c3|] eqn:R3; [|discriminate].
  destruct (row !! 4%nat) as [c4|] eqn:R4; [|discriminate].
  destruct (row !! 5%nat) as [c5|] eqn:R5; [|discriminate].
  destruct (row !! 6%nat) as [c6|] eqn:R6; [|discriminate].
  destruct (row !! 7%nat) as [c7|] eqn:R7; [|discriminate].
  destruct (row !! 8%nat) as [c8|] eqn:R8; [|discriminate].
  destruct (row !! 9%nat) as [c9|] eqn:R9; [|discriminate].
  destruct (row !! 10%nat) as [c10|] eqn:R10; [|discriminate].
  destruct (row !! 11%nat) as [c11|] eqn:R11; [|discriminate].
  destruct (row !! 12%nat) as [c12|] eqn:R12; [|discriminate].
  intros [= <-] Hkey Hcell.
  do 13 (destruct i as [|i];
         [cbn in Hkey; injection Hkey as <-;
          rewrite ?lookup_insert_ne by discriminate;
          rewrite lookup_insert_eq; congruence|]).
  discriminate Hkey.
Qed.

Lemma float_field_inv (key : string) (d d' : pydict) :
  Feed.float_field key d = Ret d' ->
  exists v f,
    d !! key = Some v /\ Builtins.py_float v = Ret f /\
    d' = <[key := PyFloat f]> d.
Proof.
  unfold Feed.float_field, Control.obind, Control.subscript. intros H.
  destruct (d !! key) as [v|]; [|discriminate].
  destruct (Builtins.py_float v) as [f|] eqn:Hf; [|discriminate].
  injection H as <-. eauto.
Qed.

(** Peels one float conversion off a completed run of the inner [try]. *)
Ltac peel_float H :=
  match type of H with
  | Control.obind (Feed.float_field ?key ?d) _ = Ret _ =>
      let d' := fresh "d" in
      let v := fresh "v" in
      let f := fresh "f" in
      let E := fresh "E" in
      let Hv := fresh "Hv" in
      let Hf := fresh "Hf" in
      destruct (Feed.float_field key d) as [d'|] eqn:E; [|discriminate H];
      cbn [Control.obind] in H;
      apply float_field_inv in E as (v & f & Hv & Hf & ->);
      rewrite ?lookup_insert_ne in Hv by discriminate
  end.

(** A completed run of the inner [try]: the epoch is an integer that the
    clock accepts, the nine numeric fields are floats of what was there,
    the text fields are as they were. *)
Lemma convert_fields_inv P (d d' : pydict) :
  Feed.convert_fields P d = Ret d' ->
  (exists v epoch u l,
      d !! "Epoch Time" = Some v /\ Builtins.py_int v = Ret epoch /\
      clock P epoch = Ret (u, l) /\
      d' !! "Epoch Time" = Some (PyInt epoch) /\
      d' !! "utc_timestamp" = Some (PyStr (u +:+ "Z")) /\
      d' !! "local_timestamp" = Some (PyStr l)) /\
  (forall key, key ∈ numeric_fields ->
     exists f,
       Builtins.py_float (Feed.dict_get d key (PyStr "NaN")) = Ret f /\
       d' !! key = Some (PyFloat f)) /\
  (forall key, key ∈ text_fields -> d' !! key = d !! key).
Proof.
  unfold Feed.convert_fields, Control.subscript. intros H.
  destruct (d !! "Epoch Time") as [v0|] eqn:H0; [|discriminate].
  cbn [Control.obind] in H.
  destruct (Builtins.py_int v0) as [epoch|] eqn:Hepoch; [|discriminate].
  cbn [Control.obind] in H.
  destruct (clock P epoch) as [[u l]|] eqn:Hclock; [|discriminate].
  cbn [Control.obind fst snd] in H.
  do 8 peel_float H.
  destruct (Builtins.py_float (Feed.dict_get _ "Compass Heading" _)) as [f8|] eqn:Hf8;
    [|discriminate].
  cbn [Control.obind] in H. injection H as <-.
  unfold Feed.dict_get in Hf8. rewrite !lookup_insert_ne in Hf8 by discriminate.
  split; [|split].
  - exists v0, epoch, u, l. repeat (split; [reflexivity || assumption|]).
    repeat split; rewrite !lookup_insert_ne by discriminate;
      apply lookup_insert_eq.
  - intros key Hkey. unfold numeric_fields in Hkey. unfold Feed.dict_get.
    repeat (apply elem_of_cons in Hkey as [->|Hkey]);
      [ | | | | | | | | | inversion Hkey ];
      match goal with
      | Hv : d !! ?k = Some ?v, Hf : Builtins.py_float ?v = Ret ?f
        |- context [d !! ?k] =>
          exists f; rewrite Hv; split; [exact Hf|];
          rewrite ?lookup_insert_ne by discriminate; apply lookup_insert_eq
      | |- _ => exists f8; split; [exact Hf8|apply lookup_insert_eq]
      end.
  - intros key Hkey. unfold text_fields in Hkey.
    repeat (apply elem_of_cons in Hkey as [->|Hkey]);
      [ | | | inversion Hkey ];
      rewrite !lookup_insert_ne by discriminate; reflexivity.
Qed.

(** X21.  A record holds its row, field by field: a text field is the
    cell as it came; a numeric field is the float read from its cell (the
    compass heading too: its cell is always there, so the NaN default is
    never what is read); the epoch is the integer read from its cell,
    with the two stamps the clock makes of it, the UTC one ending in
    [Z]. *)
Theorem record_holds_its_row P (line_number : nat) (row : list string)
    (record : pydict) (i : nat) (key cell : string) :
  appended (Feed.process_row P line_number row) = Some record ->
  Feed.base_fields !! i = Some key ->
  row !! i = Some cell ->
  (key ∈ text_fields -> record !! key = Some (PyStr cell)) /\
  (key ∈ numeric_fields ->
   exists f, Builtins.float_of_string cell = Some f /\
             record !! key = Some (PyFloat f)) /\
  (key = "Epoch Time" ->
   exists epoch u l,
     Builtins.int_of_string cell = Some epoch /\
     clock P epoch = Ret (u, l) /\
     record !! "Epoch Time" = Some (PyInt epoch) /\
     record !! "utc_timestamp" = Some (PyStr (u +:+ "Z")) /\
     record !! "local_timestamp" = Some (PyStr l)).
Proof.
  intros (base_data & converted & doa & _ & Hb & Hc & _ & ->)%appended_inv Hkey Hcell.
  pose proof (base_data_cell _ _ _ _ _ Hb Hkey Hcell) as Hbase.
  destruct (convert_fields_inv _ _ _ Hc) as (Hepoch & Hnum & Htext).
  split; [|split].
  - intros Hin.
    assert (key <> "DOA Output").
    { intros ->. unfold text_fields in Hin.
      repeat (apply elem_of_cons in Hin as [Hin|Hin]; [discriminate Hin|]).
      inversion Hin. }
    rewrite lookup_insert_ne by congruence. rewrite (Htext key Hin). exact Hbase.
  - intros Hin.
    assert (key <> "DOA Output").
    { intros ->. unfold numeric_fields in Hin.
      repeat (apply elem_of_cons in Hin as [Hin|Hin]; [discriminate Hin|]).
      inversion Hin. }
    destruct (Hnum key Hin) as (f & Hf & Hd).
    unfold Feed.dict_get in Hf. rewrite Hbase in Hf. cbn in Hf.
    destruct (Builtins.float_of_string cell) as [f'|]; [|discriminate].
    injection Hf as ->. exists f. split; [reflexivity|].
    rewrite lookup_insert_ne by congruence. exact Hd.
  - intros ->.
    destruct Hepoch as (v & epoch & u & l & Hv & Hint & Hclock & H1 & H2 & H3).
    rewrite Hbase in Hv. injection Hv as <-. cbn in Hint.
    destruct (Builtins.int_of_string cell) as [n|]; [|discriminate].
    injection Hint as ->. exists epoch, u, l.
    rewrite !lookup_insert_ne by discriminate. auto.
Qed.

Lemma record_holds_its_row_witness :
  ("Compass Heading" ∈ text_fields ->
   match appended (Feed.process_row RefHost.linux_utc 1
                     (RefHost.feed_row RefHost.good_base "0.5")) with
   | Some record => record
   | None => ∅
   end !! "Compass Heading" = Some (PyStr "271.3")) /\
  ("Compass Heading" ∈ numeric_fields ->
   exists f, Builtins.float_of_string "271.3" = Some f /\
             match appended (Feed.process_row RefHost.linux_utc 1
                               (RefHost.feed_row RefHost.good_base "0.5")) with
             | Some record => record
             | None => ∅
             end !! "Compass Heading" = Some (PyFloat f)) /\
  ("Compass Heading" = "Epoch Time" ->
   exists epoch u l,
     Builtins.int_of_string "271.3" = Some epoch /\
     clock RefHost.linux_utc epoch = Ret (u, l) /\
     match appended (Feed.process_row RefHost.linux_utc 1
                       (RefHost.feed_row RefHost.good_base "0.5")) with
     | Some record => record
     | None => ∅
     end !! "Epoch Time" = Some (PyInt epoch) /\
     match appended (Feed.process_row RefHost.linux_utc 1
                       (RefHost.feed_row RefHost.good_base "0.5")) with
     | Some record => record
     | None => ∅
     end !! "utc_timestamp" = Some (PyStr (u +:+ "Z")) /\
     match appended (Feed.process_row RefHost.linux_utc 1
                       (RefHost.feed_row RefHost.good_base "0.5")) with
     | Some record => record
     | None => ∅
     end !! "local_timestamp" = Some (PyStr l)).
Proof.
  apply (record_holds_its_row RefHost.linux_utc 1
           (RefHost.feed_row RefHost.good_base "0.5") _ 11 "Compass Heading" "271.3").
  - apply some_content. vm_compute. reflexivity.
  - reflexivity.
  - reflexivity.
Defined.

(** The record of a row does not depend on its line number, which only
    the diagnostics show. *)
Lemma process_row_line_number P (n m : nat) (row : list string) :
  fst (Feed.process_row P n row) = fst (Feed.process_row P m row).
Proof.
  unfold Feed.process_row.
  destruct (length row <? length Feed.fields)%nat; [reflexivity|].
  destruct (Feed.base_comprehension row _ ∅) as [b|e]; [|reflexivity].
  destruct (Feed.convert_fields P b) as [b'|e];
    [|destruct (is_ValueError e); reflexivity].
  destruct (Feed.doa_comprehension row _ ∅); reflexivity.
Qed.

(** A turn that skips its row prints one diagnostic, a turn that appends
    prints none. *)
Lemma process_row_diagnostics P (n : nat) (row : list string) :
  match Feed.process_row P n row with
  | (Ret None, out) => length out = 1%nat
  | (Ret (Some _), out) => out = []
  | (Raise _, _) => True
  end.
Proof.
  unfold Feed.process_row.
  destruct (length row <? length Feed.fields)%nat; [reflexivity|].
  destruct (Feed.base_comprehension row _ ∅) as [b|e]; [|exact I].
  destruct (Feed.convert_fields P b) as [b'|e];
    [|destruct (is_ValueError e); [reflexivity|exact I]].
  destruct (Feed.doa_comprehension row _ ∅); [reflexivity|exact I].
Qed.

(** X22.  The loop over the rows keeps the good rows, in their order:
    when it ends without an exception, the rows it returns are the
    records of the rows that yield one, one after the other, and every
    other row has left exactly one diagnostic; when an exception ends it,
    that exception was raised by one of the rows. *)
Theorem loop_keeps_good_rows_in_order P (line_number : nat)
    (todo : list (list string)) (rows : list pydict) :
  match Feed.process_rows P line_number todo rows with
  | (Ret result, out) =>
      result = (rows ++ omap (fun row => appended (Feed.process_row P 1 row)) todo)%list /\
      (length result + length out = length rows + length todo)%nat
  | (Raise e, _) =>
      exists row, row ∈ todo /\ fst (Feed.process_row P 1 row) = Raise e
  end.
Proof.
  revert line_number rows.
  induction todo as [|row todo IH]; intros n rows.
  - cbn. rewrite app_nil_r. split; [reflexivity|lia].
  - cbn [Feed.process_rows omap list_omap].
    pose proof (process_row_line_number P n 1 row) as Hn.
    pose proof (process_row_diagnostics P n row) as Hd.
    unfold appended at 1. rewrite <- Hn.
    destruct (Feed.process_row P n row) as [[[record|]|e] out]; cbn [fst] in *.
    + subst out. specialize (IH (S n) (rows ++ [record])%list).
      destruct (Feed.process_rows P (S n) todo (rows ++ [record])%list)
        as [[result|e] out'].
      * destruct IH as [-> IH]. rewrite <- app_assoc. split; [reflexivity|].
        rewrite !length_app in *. cbn [length app] in *. lia.
      * destruct IH as (r & Hr & He). exists r. split; [right; exact Hr|exact He].
    + specialize (IH (S n) rows).
      destruct (Feed.process_rows P (S n) todo rows) as [[result|e] out'].
      * destruct IH as [-> IH]. split; [reflexivity|].
        rewrite !length_app in *. cbn [length app] in *. lia.
      * destruct IH as (r & Hr & He). exists r. split; [right; exact Hr|exact He].
    + exists row. split; [left|]. symmetry. exact Hn.
Qed.

(** The content of an outcome that returned. *)
Lemma ret_content {A} (o : outcome A) (default : A) :
  match o with Ret _ => true | Raise _ => false end = true ->
  o = Ret (match o with Ret a => a | Raise _ => default end).
Proof. destruct o; [reflexivity|discriminate]. Qed.

(** X23.  A [csv.Error] that ends the reading costs the whole feed: the
    rows already parsed are dropped and the fetch returns the empty
    list, where the same rows without the error are returned as they
    are. *)
Theorem csv_error_discards_parsed_rows P (todo : list (list string))
    (rows : list pydict) :
  fst (Feed.process_rows P 1 todo []) = Ret rows ->
  fst (Feed.fetch_and_process_csv P (Feed.Body todo true)) = Ret [] /\
  fst (Feed.fetch_and_process_csv P (Feed.Body todo false)) = Ret rows.
Proof.
  unfold Feed.fetch_and_process_csv.
  destruct (Feed.process_rows P 1 todo []) as [[result|e] out]; cbn [fst];
    [|discriminate].
  intros [= ->]. split; reflexivity.
Qed.

Lemma csv_error_discards_parsed_rows_witness :
  fst (Feed.fetch_and_process_csv RefHost.linux_utc
         (Feed.Body [RefHost.feed_row RefHost.good_base "0.5"] true)) = Ret [] /\
  fst (Feed.fetch_and_process_csv RefHost.linux_utc
         (Feed.Body [RefHost.feed_row RefHost.good_base "0.5"] false))
  = Ret (match fst (Feed.process_rows RefHost.linux_utc 1
                      [RefHost.feed_row RefHost.good_base "0.5"] []) with
         | Ret rows => rows
         | Raise _ => []
         end).
Proof.
  apply (csv_error_discards_parsed_rows RefHost.linux_utc
           [RefHost.feed_row RefHost.good_base "0.5"]).
  apply ret_content. vm_compute. reflexivity.
Defined.




(** ** The allow-list pattern *)

Lemma take_digits_spec (k : nat) (l ds rest : list ascii) :
  Agent.take_digits k l = Some (ds, rest) ->
  l = (ds ++ rest)%list /\ length ds = k /\ forallb Text.is_digit ds = true.
Proof.
  revert l ds rest.
  induction k as [|k IH]; intros l ds rest H; cbn in H.
  - injection H as <- <-. auto.
  - destruct l as [|c l]; [discriminate|].
    destruct (Text.is_digit c) eqn:Hc; [|discriminate].
    destruct (Agent.take_digits k l) as [[ds' rest']|] eqn:Ht; [|discriminate].
    injection H as <- <-.
    destruct (IH _ _ _ Ht) as (-> & <- & Hd).
    cbn. rewrite Hc, Hd. auto.
Qed.

Lemma take_digits_complete (ds rest : list ascii) :
  forallb Text.is_digit ds = true ->
  Agent.take_digits (length ds) (ds ++ rest) = Some (ds, rest).
Proof.
  induction ds as [|c ds IH]; intros H; cbn in *; [reflexivity|].
  apply andb_true_iff in H as [Hc Hd].
  rewrite Hc, (IH Hd). reflexivity.
Qed.

Lemma digit_group_of_length (k : nat) (ds : list ascii) :
  (1 <= k <= 3)%nat -> length ds = k -> forallb Text.is_digit ds = true ->
  digit_group ds = true.
Proof.
  intros Hk Hl Hd. unfold digit_group. rewrite Hd, Hl.
  destruct Hk as [H1 H3].
  apply Nat.leb_le in H1. apply Nat.leb_le in H3. rewrite H1, H3. reflexivity.
Qed.

Lemma digit_group_inv (ds : list ascii) :
  digit_group ds = true ->
  (length ds = 1 \/ length ds = 2 \/ length ds = 3)%nat /\
  forallb Text.is_digit ds = true.
Proof.
  unfold digit_group. intros H.
  apply andb_true_iff in H as [H Hd].
  apply andb_true_iff in H as [H1 H3].
  apply Nat.leb_le in H1. apply Nat.leb_le in H3. split; [lia|exact Hd].
Qed.

(** A match found by the backtracking matcher is a text of the pattern
    at the head of the input. *)
Lemma match_here_sound (pat : list Agent.atom) (l m : list ascii) :
  Agent.match_here pat l = Some m ->
  matches pat m /\ exists after, l = (m ++ after)%list.
Proof.
  revert l m.
  induction pat as [|[|] pat IH]; intros l m H.
  - cbn in H. injection H as <-. split; [reflexivity|]. exists l. reflexivity.
  - assert (Hk : exists k ds rest m',
               (1 <= k <= 3)%nat /\ Agent.take_digits k l = Some (ds, rest) /\
               Agent.match_here pat rest = Some m' /\ m = (ds ++ m')%list).
    { cbn [Agent.match_here] in H.
      destruct (Agent.take_digits 3 l) as [[ds3 r3]|] eqn:H3.
      - destruct (Agent.match_here pat r3) as [m3|] eqn:M3.
        + injection H as <-. exists 3%nat, ds3, r3, m3. repeat split; auto; lia.
        + destruct (Agent.take_digits 2 l) as [[ds2 r2]|] eqn:H2.
          * destruct (Agent.match_here pat r2) as [m2|] eqn:M2.
            -- injection H as <-. exists 2%nat, ds2, r2, m2. repeat split; auto; lia.
            -- destruct (Agent.take_digits 1 l) as [[ds1 r1]|] eqn:H1; [|discriminate].
               destruct (Agent.match_here pat r1) as [m1|] eqn:M1; [|discriminate].
               injection H as <-. exists 1%nat, ds1, r1, m1. repeat split; auto; lia.
          * destruct (Agent.take_digits 1 l) as [[ds1 r1]|] eqn:H1; [|discriminate].
            destruct (Agent.match_here pat r1) as [m1|] eqn:M1; [|discriminate].
            injection H as <-. exists 1%nat, ds1, r1, m1. repeat split; auto; lia.
      - destruct (Agent.take_digits 2 l) as [[ds2 r2]|] eqn:H2.
        + destruct (Agent.match_here pat r2) as [m2|] eqn:M2.
          * injection H as <-. exists 2%nat, ds2, r2, m2. repeat split; auto; lia.
          * destruct (Agent.take_digits 1 l) as [[ds1 r1]|] eqn:H1; [|discriminate].
            destruct (Agent.match_here pat r1) as [m1|] eqn:M1; [|discriminate].
            injection H as <-. exists 1%nat, ds1, r1, m1. repeat split; auto; lia.
        + destruct (Agent.take_digits 1 l) as [[ds1 r1]|] eqn:H1; [|discriminate].
          destruct (Agent.match_here pat r1) as [m1|] eqn:M1; [|discriminate].
          injection H as <-. exists 1%nat, ds1, r1, m1. repeat split; auto; lia. }
    destruct Hk as (k & ds & rest & m' & Hk & Ht & Hm & ->).
    destruct (take_digits_spec _ _ _ _ Ht) as (-> & Hl & Hd).
    destruct (IH _ _ Hm) as (Hmatch & after & ->).
    split.
    + cbn. exists ds, m'. repeat split; auto.
      exact (digit_group_of_length k ds Hk Hl Hd).
    + exists after. rewrite app_assoc. reflexivity.
  - cbn in H. destruct l as [|c l]; [discriminate|].
    destruct (Text.ascii_eqb c ".") eqn:Hc; [|discriminate].
    apply Ascii.eqb_eq in Hc as ->.
    destruct (Agent.match_here pat l) as [m'|] eqn:Hm; [|discriminate].
    injection H as <-.
    destruct (IH _ _ Hm) as (Hmatch & after & ->).
    split; [cbn; eauto|]. exists after. reflexivity.
Qed.

(** The matcher misses no text of the pattern: it tries every length of
    every group. *)
Lemma match_here_complete (pat : list Agent.atom) (m after : list ascii) :
  matches pat m -> exists m', Agent.match_here pat (m ++ after) = Some m'.
Proof.
  revert m after.
  induction pat as [|[|] pat IH]; intros m after H.
  - cbn. eauto.
  - cbn in H. destruct H as (ds & m0 & -> & Hg & Hm).
    destruct (digit_group_inv _ Hg) as [Hl Hd].
    destruct (IH m0 after Hm) as [m' Hm'].
    pose proof (take_digits_complete ds (m0 ++ after) Hd) as Ht.
    rewrite <- app_assoc.
    cbn [Agent.match_here].
    destruct Hl as [Hl|[Hl|Hl]]; rewrite Hl in Ht.
    + destruct (Agent.take_digits 3 _) as [[ds3 r3]|];
        [destruct (Agent.match_here pat r3); [eauto|]|];
        (destruct (Agent.take_digits 2 _) as [[ds2 r2]|];
           [destruct (Agent.match_here pat r2); [eauto|]|]);
        rewrite Ht, Hm'; eauto.
    + destruct (Agent.take_digits 3 _) as [[ds3 r3]|];
        [destruct (Agent.match_here pat r3); [eauto|]|];
        rewrite Ht, Hm'; eauto.
    + rewrite Ht, Hm'. eauto.
  - cbn in H. destruct H as (m0 & -> & Hm).
    destruct (IH m0 after Hm) as [m' Hm'].
    cbn. rewrite Hm'. eauto.
Qed.

Lemma matches_ippattern (m : list ascii) :
  matches Agent.ippattern m <-> dotted_quad m.
Proof.
  unfold dotted_quad. cbn. split.
  - intros (a & m1 & -> & Ha & m2 & -> & b & m3 & -> & Hb & m4 & -> &
            c & m5 & -> & Hc & m6 & -> & d & m7 & -> & Hd & ->).
    exists a, b, c, d. rewrite app_nil_r. auto.
  - intros (a & b & c & d & -> & Ha & Hb & Hc & Hd).
    exists a, ("."%char :: b ++ "."%char :: c ++ "."%char :: d)%list.
    split; [reflexivity|]. split; [exact Ha|].
    exists (b ++ "."%char :: c ++ "."%char :: d)%list. split; [reflexivity|].
    exists b, ("."%char :: c ++ "."%char :: d)%list.
    split; [reflexivity|]. split; [exact Hb|].
    exists (c ++ "."%char :: d)%list. split; [reflexivity|].
    exists c, ("."%char :: d)%list.
    split; [reflexivity|]. split; [exact Hc|].
    exists d. split; [reflexivity|].
    exists d, []. rewrite app_nil_r. auto.
Qed.

Lemma search_sound (l m : list ascii) :
  Agent.search l = Some m ->
  dotted_quad m /\ exists before after, l = (before ++ m ++ after)%list.
Proof.
  induction l as [|c l IH]; intros H.
  - cbn in H. discriminate.
  - cbn [Agent.search] in H.
    destruct (Agent.match_here Agent.ippattern (c :: l)) as [m'|] eqn:Hm.
    + injection H as ->.
      destruct (match_here_sound _ _ _ Hm) as (Hq & after & ->).
      split; [apply matches_ippattern; exact Hq|].
      exists [], after. reflexivity.
    + destruct (IH H) as (Hq & before & after & ->).
      split; [exact Hq|]. exists (c :: before), after. reflexivity.
Qed.

Lemma search_complete (before m after : list ascii) :
  dotted_quad m -> exists m', Agent.search (before ++ m ++ after) = Some m'.
Proof.
  intros Hq. apply matches_ippattern in Hq.
  destruct (match_here_complete _ m after Hq) as [m0 Hm0].
  induction before as [|c before IH].
  - cbn [app]. destruct (m ++ after)%list eqn:E; cbn [Agent.search];
      rewrite Hm0; eauto.
  - cbn [app Agent.search].
    destruct (Agent.match_here Agent.ippattern (c :: before ++ m ++ after)); eauto.
Qed.

(** The match that the search returns starts at the first place where a
    dotted quad stands. *)
Lemma search_leftmost (l m : list ascii) :
  Agent.search l = Some m ->
  exists before after,
    l = (before ++ m ++ after)%list /\
    forall before' m' after',
      l = (before' ++ m' ++ after')%list -> dotted_quad m' ->
      (length before <= length before')%nat.
Proof.
  induction l as [|c l IH]; intros H.
  - cbn in H. discriminate.
  - cbn [Agent.search] in H.
    destruct (Agent.match_here Agent.ippattern (c :: l)) as [m0|] eqn:Hm.
    + injection H as ->.
      destruct (match_here_sound _ _ _ Hm) as (_ & after & ->).
      exists [], after. split; [reflexivity|]. intros; cbn; lia.
    + destruct (IH H) as (before & after & -> & Hleft).
      exists (c :: before), after. split; [reflexivity|].
      intros before' m' after' Heq Hq.
      destruct before' as [|c' before'].
      * cbn [app] in Heq. apply matches_ippattern in Hq.
        destruct (match_here_complete _ m' after' Hq) as [m1 Hm1].
        rewrite <- Heq in Hm1. rewrite Hm in Hm1. discriminate.
      * cbn [app] in Heq. injection Heq as _ Heq.
        specialize (Hleft _ _ _ Heq Hq). cbn. lia.
Qed.

(** X25.  The address that [--allowedips] puts on the allow-list for an
    entry is a dotted quad -- four groups of one to three digits, not
    held to 255 -- that stands in the entry, at the first place from the
    left where one stands; what surrounds it is dropped, so that an
    entry like [10.0.0.1234] lets [10.0.0.123] in. *)
Theorem allowed_address_is_dotted_quad_of_entry (ipStr ipValue : list ascii) :
  Agent.search ipStr = Some ipValue ->
  dotted_quad ipValue /\
  exists before after,
    ipStr = (before ++ ipValue ++ after)%list /\
    forall before' m' after',
      ipStr = (before' ++ m' ++ after')%list -> dotted_quad m' ->
      (length before <= length before')%nat.
Proof.
  intros H. split; [exact (proj1 (search_sound _ _ H))|].
  exact (search_leftmost _ _ H).
Qed.

Lemma allowed_address_is_dotted_quad_of_entry_witness :
  dotted_quad (Text.chars "10.0.0.123") /\
  exists before after,
    Text.chars "host=10.0.0.1234/8"
    = (before ++ Text.chars "10.0.0.123" ++ after)%list /\
    forall before' m' after',
      Text.chars "host=10.0.0.1234/8" = (before' ++ m' ++ after')%list ->
      dotted_quad m' ->
      (length before <= length before')%nat.
Proof.
  apply (allowed_address_is_dotted_quad_of_entry
           (Text.chars "host=10.0.0.1234/8") (Text.chars "10.0.0.123")).
  vm_compute. reflexivity.
Defined.

(** X26.  An entry is refused exactly when no dotted quad stands in it:
    the pattern search finds an address if and only if the entry has
    four groups of one to three digits, with dots between, somewhere in
    it. *)
Theorem entry_is_read_iff_it_holds_a_dotted_quad (ipStr : list ascii) :
  (exists ipValue, Agent.search ipStr = Some ipValue) <->
  (exists before m after,
     ipStr = (before ++ m ++ after)%list /\ dotted_quad m).
Proof.
  split.
  - intros [m H]. destruct (search_sound _ _ H) as (Hq & before & after & ->).
    exists before, m, after. auto.
  - intros (before & m & after & -> & Hq). exact (search_complete before m after Hq).
Qed.

(** ** Building the allow-list *)

Lemma dotted_quad_nonempty (m : list ascii) :
  dotted_quad m -> (0 <? length m)%nat = true.
Proof.
  intros (a & b & c & d & -> & _). apply Nat.ltb_lt.
  rewrite length_app. cbn. lia.
Qed.

Lemma chars_text (l : list ascii) : Text.chars (Text.text l) = l.
Proof. apply list_ascii_of_string_of_list_ascii. Qed.

(** The loop over the items: it exits with 3 at the first item in which
    the pattern finds nothing, and otherwise appends one address for
    every item, in order. *)
Lemma build_each_spec (tmpList : list (list ascii)) (allowedIPs : list string) :
  match build_each tmpList allowedIPs with
  | BuildExit code =>
      code = 3 /\ exists curItem, curItem ∈ tmpList /\ search (entry curItem) = None
  | BuildReturn ok ips =>
      ok = true /\
      exists new, ips = (allowedIPs ++ new)%list /\
        Forall2 (fun curItem ip => search (entry curItem) = Some (Text.chars ip))
                tmpList new
  end.
Proof.
  revert allowedIPs.
  induction tmpList as [|curItem tmpList IH]; intros acc.
  - cbn. split; [reflexivity|]. exists []. rewrite app_nil_r. split; constructor.
  - cbn [build_each]. fold (entry curItem).
    destruct (search (entry curItem)) as [ipValue|] eqn:Hs.
    + destruct (search_sound _ _ Hs) as [Hq _].
      rewrite (dotted_quad_nonempty _ Hq).
      specialize (IH (acc ++ [Text.text ipValue])%list).
      destruct (build_each tmpList (acc ++ [Text.text ipValue])%list) as [code|ok ips].
      * destruct IH as (-> & item & Hin & Hnone).
        split; [reflexivity|]. exists item. split; [right; exact Hin|exact Hnone].
      * destruct IH as (-> & new & -> & Hall).
        split; [reflexivity|]. exists (Text.text ipValue :: new).
        rewrite <- app_assoc. split; [reflexivity|].
        constructor; [rewrite chars_text; exact Hs|exact Hall].
    + split; [reflexivity|]. exists curItem. split; [left|exact Hs].
Qed.

Lemma contains_char_nonempty (c : ascii) (s : string) :
  Text.contains_char c (Text.chars s) = true -> (0 <? String.length s)%nat = true.
Proof. destruct s; [discriminate|reflexivity]. Qed.

(** A text with a comma goes to the loop over its items. *)
Lemma buildAllowedIPs_comma (allowedIPstr : string) :
  Text.contains_char "," (Text.chars allowedIPstr) = true ->
  buildAllowedIPs allowedIPstr
  = build_each (Text.split_on "," (Text.chars allowedIPstr)) [].
Proof.
  intros Hc. unfold buildAllowedIPs.
  rewrite (contains_char_nonempty _ _ Hc), Hc. reflexivity.
Qed.

(** X27.  A comma-separated [--allowedips] is taken whole or not at all:
    either every item holds a dotted quad, and the allow-list gets
    exactly one address per item, in the order of the items, each the
    address found in its item with the blanks removed; or some item
    holds none and the process exits with code 3.  [False] is never
    returned for a list. *)
Theorem comma_list_is_all_or_nothing (allowedIPstr : string) :
  Text.contains_char "," (Text.chars allowedIPstr) = true ->
  match buildAllowedIPs allowedIPstr with
  | BuildExit code =>
      code = 3 /\
      exists curItem, curItem ∈ Text.split_on "," (Text.chars allowedIPstr) /\
                      search (entry curItem) = None
  | BuildReturn ok allowedIPs =>
      ok = true /\
      Forall2 (fun curItem ip => search (entry curItem) = Some (Text.chars ip))
              (Text.split_on "," (Text.chars allowedIPstr)) allowedIPs
  end.
Proof.
  intros Hc. rewrite (buildAllowedIPs_comma _ Hc).
  pose proof (build_each_spec (Text.split_on "," (Text.chars allowedIPstr)) []) as H.
  destruct (build_each (Text.split_on "," (Text.chars allowedIPstr)) [])
    as [code|ok ips]; [exact H|].
  destruct H as (-> & new & -> & Hall). split; [reflexivity|exact Hall].
Qed.

Lemma comma_list_is_all_or_nothing_witness :
  match buildAllowedIPs "10.0.0.5, 192.168.1.20" with
  | BuildExit code =>
      code = 3 /\
      exists curItem,
        curItem ∈ Text.split_on "," (Text.chars "10.0.0.5, 192.168.1.20") /\
        search (entry curItem) = None
  | BuildReturn ok allowedIPs =>
      ok = true /\
      Forall2 (fun curItem ip => search (entry curItem) = Some (Text.chars ip))
              (Text.split_on "," (Text.chars "10.0.0.5, 192.168.1.20")) allowedIPs
  end.
Proof.
  apply (comma_list_is_all_or_nothing "10.0.0.5, 192.168.1.20").
  vm_compute. reflexivity.
Defined.

Lemma split_on_nonempty (c : ascii) (l : list ascii) : Text.split_on c l <> [].
Proof.
  destruct l as [|x l]; cbn; [discriminate|].
  destruct (Text.ascii_eqb x c); [discriminate|].
  destruct (Text.split_on c l); discriminate.
Qed.

(** The pieces before a separator, then the pieces after it. *)
Lemma split_on_app (c : ascii) (l r : list ascii) :
  Text.split_on c (l ++ c :: r) = (Text.split_on c l ++ Text.split_on c r)%list.
Proof.
  induction l as [|x l IH].
  - cbn. unfold Text.ascii_eqb. rewrite Ascii.eqb_refl. reflexivity.
  - cbn [app Text.split_on]. rewrite IH.
    destruct (Text.ascii_eqb x c); [reflexivity|].
    pose proof (split_on_nonempty c l) as Hne.
    destruct (Text.split_on c l) as [|p ps]; [contradiction|]. reflexivity.
Qed.

Lemma contains_char_app (c : ascii) (l r : list ascii) :
  Text.contains_char c (l ++ c :: r) = true.
Proof.
  unfold Text.contains_char. rewrite existsb_app. cbn.
  unfold Text.ascii_eqb. rewrite Ascii.eqb_refl. apply orb_true_r.
Qed.

(** An item of blanks is one piece, and an empty entry. *)
Lemma blanks_only (l : list ascii) :
  forallb (Text.ascii_eqb " ") l = true ->
  Text.split_on "," l = [l] /\ entry l = [].
Proof.
  induction l as [|x l IH]; intros H; [split; reflexivity|].
  cbn [forallb] in H. apply andb_true_iff in H as [Hx Hl].
  unfold Text.ascii_eqb in Hx. apply Ascii.eqb_eq in Hx as <-.
  destruct (IH Hl) as [Hs He]. split.
  - cbn [Text.split_on]. rewrite Hs. reflexivity.
  - unfold entry, Text.remove_char in *. cbn [filter]. exact He.
Qed.

(** X28.  An empty item stops the start-up: when [--allowedips] has a
    comma with nothing but blanks up to the next comma or the end of the
    text -- a trailing comma, say -- and the settings are found, the
    process exits with code 3 whatever the other items are, and before
    the port is bound. *)
Theorem empty_item_stops_startup (h : host) (args : arguments)
    (before blanks after : string) :
  path_exists h (settings_path args) = true ->
  path_exists h (settings_path args +:+ "/settings.json") = true ->
  allowedips args = before +:+ "," +:+ blanks +:+ after ->
  forallb (Text.ascii_eqb " ") (Text.chars blanks) = true ->
  after = "" \/ Text.startswith after "," = true ->
  main h args = Exit 3.
Proof.
  intros Hdir Hfile Hargs Hblank Hafter.
  destruct (blanks_only _ Hblank) as [Hone Hnil].
  assert (Hc : Text.contains_char "," (Text.chars (allowedips args)) = true).
  { rewrite Hargs, !chars_app. apply contains_char_app. }
  assert (Hitem : Text.chars blanks ∈ Text.split_on "," (Text.chars (allowedips args))).
  { rewrite Hargs, !chars_app.
    change (Text.chars ",") with [","%char]. cbn [app].
    rewrite split_on_app. apply elem_of_app. right.
    destruct Hafter as [->|Hs].
    - change (Text.chars "") with (@nil ascii). rewrite app_nil_r.
      rewrite Hone. left.
    - apply startswith_split in Hs as [t ->].
      rewrite chars_app. change (Text.chars ",") with [","%char]. cbn [app].
      rewrite split_on_app. apply elem_of_app. left.
      rewrite Hone. left. }
  assert (Hnone : search (entry (Text.chars blanks)) = None).
  { rewrite Hnil. reflexivity. }
  pose proof (build_each_spec
                (Text.split_on "," (Text.chars (allowedips args))) []) as Hb.
  unfold main. rewrite Hdir, Hfile, (buildAllowedIPs_comma _ Hc). cbn [negb].
  destruct (build_each (Text.split_on "," (Text.chars (allowedips args))) [])
    as [code|ok ips].
  - destruct Hb as [-> _]. reflexivity.
  - destruct Hb as (_ & new & _ & Hall). exfalso.
    apply list_elem_of_lookup_1 in Hitem as [i Hi].
    destruct (Forall2_lookup_l _ _ _ _ _ Hall Hi) as (ip & _ & Hip).
    rewrite Hnone in Hip. discriminate.
Qed.

Lemma empty_item_stops_startup_witness :
  main RefHost.ready (RefHost.arguments_with "10.0.0.5, 10.0.0.6,") = Exit 3.
Proof.
  apply (empty_item_stops_startup RefHost.ready
           (RefHost.arguments_with "10.0.0.5, 10.0.0.6,") "10.0.0.5, 10.0.0.6" "" "").
  - reflexivity.
  - reflexivity.
  - reflexivity.
  - reflexivity.
  - left. reflexivity.
Defined.

(** What [buildAllowedIPs] leaves on the allow-list, however it ends. *)
Lemma buildAllowedIPs_addresses (allowedIPstr : string) :
  match buildAllowedIPs allowedIPstr with
  | BuildExit code =>
      code = 3 /\ Text.contains_char "," (Text.chars allowedIPstr) = true
  | BuildReturn _ allowedIPs =>
      Forall (fun ip => dotted_quad (Text.chars ip)) allowedIPs
  end.
Proof.
  destruct (Text.contains_char "," (Text.chars allowedIPstr)) eqn:Hc.
  - pose proof (build_each_spec
                  (Text.split_on "," (Text.chars allowedIPstr)) []) as H.
    rewrite (buildAllowedIPs_comma _ Hc).
    destruct (build_each (Text.split_on "," (Text.chars allowedIPstr)) [])
      as [code|ok ips].
    + destruct H as [-> _]. auto.
    + destruct H as (_ & new & -> & Hall). cbn [app].
      induction Hall as [|item ip items ips Hs _ IH]; constructor; [|exact IH].
      exact (proj1 (search_sound _ _ Hs)).
  - unfold buildAllowedIPs. rewrite Hc.
    destruct (0 <? String.length allowedIPstr)%nat; [|constructor].
    destruct (search (Text.remove_char " " (Text.chars allowedIPstr)))
      as [ipValue|] eqn:Hs; [|constructor].
    destruct (search_sound _ _ Hs) as [Hq _].
    rewrite (dotted_quad_nonempty _ Hq). cbn [app].
    constructor; [rewrite chars_text; exact Hq|constructor].
Qed.

(** X29.  How start-up ends.  The agent serves only with the settings
    directory and its [settings.json] found, on a port that is an
    integer -- the default, then: a port given on the command line is a
    text -- and that could be bound, and every address on its allow-list
    is then a dotted quad.  Otherwise the process exits with code 1, or
    with code 3 -- only for a comma-separated [--allowedips], after the
    settings have been found -- or it is ended by the [TypeError] or
    [OverflowError] that the server raises for a port it cannot take,
    which nothing catches. *)
Theorem startup_outcomes (h : host) (args : arguments) :
  match main h args with
  | Serving on_port allowedIPs =>
      on_port = port args /\
      path_exists h (settings_path args) = true /\
      path_exists h (settings_path args +:+ "/settings.json") = true /\
      port_free h on_port = true /\
      (forall given : string, on_port <> PyStr given) /\
      Forall (fun ip => dotted_quad (Text.chars ip)) allowedIPs
  | Exit code =>
      code = 1 \/
      (code = 3 /\
       Text.contains_char "," (Text.chars (allowedips args)) = true /\
       path_exists h (settings_path args) = true /\
       path_exists h (settings_path args +:+ "/settings.json") = true)
  | Dies e =>
      (e = TypeError "bind" \/ e = OverflowError) /\
      server_bind h (port args) = Raise e /\
      path_exists h (settings_path args) = true /\
      path_exists h (settings_path args +:+ "/settings.json") = true
  end.
Proof.
  unfold main.
  destruct (path_exists h (settings_path args)); cbn [negb]; [|left; reflexivity].
  destruct (path_exists h (settings_path args +:+ "/settings.json"));
    cbn [negb]; [|left; reflexivity].
  pose proof (buildAllowedIPs_addresses (allowedips args)) as H.
  destruct (buildAllowedIPs (allowedips args)) as [code|ok ips].
  - destruct H as [-> Hc]. right. auto.
  - unfold run, port_free.
    destruct (server_bind h (port args)) as [[]|e] eqn:Hb.
    + split; [reflexivity|]. split; [reflexivity|]. split; [reflexivity|].
      split; [rewrite Hb; reflexivity|]. split; [|exact H].
      intros given Hp. rewrite Hp in Hb. discriminate.
    + assert (He : (exists what, e = OSError what) \/
                   e = TypeError "bind" \/ e = OverflowError).
      { unfold server_bind in Hb.
        destruct (port args) as [|b|n|f|t|l|d]; try (injection Hb as <-; auto).
        - destruct (port_open h (if b then 1 else 0)); [discriminate|].
          injection Hb as <-. eauto.
        - destruct ((0 <=? n) && (n <=? 65535)); [|injection Hb as <-; auto].
          destruct (port_open h n); [discriminate|]. injection Hb as <-. eauto. }
      destruct He as [[what ->]|[->| ->]]; auto.
Qed.

(** A port given on the command line ends the process: the text reaches
    the socket as it is, and the [TypeError] is not caught. *)
Example given_port_ends_the_process :
  main RefHost.ready
    {| port := PyStr "8080";
       settings_path := "/home/krakenrf/krakensdr_doa/krakensdr_doa/_share";
       allowedips := "";
       debug_http := false |}
  = Dies (TypeError "bind").
Proof. reflexivity. Qed.

(** ** POST requests *)




(** A header padded with a no-break space, with an underscore between
    its digits, announces a body; one of 4301 digits does not. *)
Example padded_header_announces_a_body :
  announces_body (Some (String (ascii_of_nat 160) "1_2 ")) = true /\
  announces_body (Some (String.concat "" (repeat "1" 4300))) = true /\
  announces_body (Some (String.concat "" (repeat "1" 4301))) = false.
Proof. vm_compute. auto. Qed.
